(** * IT Student Mental Health API

    A shallow embedding of [main.py] and [schemas.py]: the questionnaire
    scoring of [submit_assessment], and the read-with-fallback and
    best-effort-write handlers built on the document store
    ([create_document], [get_documents]).

    Python integers are [Z], strings are [string], store documents are
    finite maps from field names to Python values, and a handler is a
    program over the two store operations that may raise. Running a
    handler against a store gives what it returns or raises, the state the
    store is left in, and the store calls it made. *)

From stdpp Require Import gmap strings list pretty.
From Stdlib Require Import ZArith Lia.

Open Scope Z_scope.

(** ** Python values and exceptions *)

#[local] Set Warnings "-register-all".

(** The values a field of a store document holds: [None], booleans,
    integers, strings, and arrays of such values. *)
Inductive PyVal : Type :=
| VNone
| VBool (b : bool)
| VInt (n : Z)
| VStr (s : string)
| VList (items : list PyVal).

(** A store record, as [get_documents] yields it: a Python dict. *)
Abbreviation Doc := (gmap string PyVal).

(** The exceptions the handlers meet; each is a subclass of [Exception], so
    [except Exception] catches every one of them. [RequestValidationError]
    is what FastAPI raises for a body that fails the schema, [StoreError]
    whatever the store raises. *)
Inductive Exn : Type :=
| IndexError
| TypeError
| ValidationError
| RequestValidationError
| HTTPException (status_code : Z) (detail : string)
| StoreError (msg : string).

(** What evaluating a Python expression gives: a value or a raised
    exception. *)
Inductive Res (A : Type) : Type :=
| Ok (a : A)
| Err (e : Exn).
Arguments Ok {A} a.
Arguments Err {A} e.

#[global] Instance Res_ret : MRet Res := fun A a => Ok a.
#[global] Instance Res_bind : MBind Res := fun A B f m =>
  match m with
  | Ok a => f a
  | Err e => Err e
  end.

(** The status FastAPI answers with when a handler raises [e]. *)
Definition http_status (e : Exn) : Z :=
  match e with
  | HTTPException status_code _ => status_code
  | RequestValidationError => 422
  | _ => 500
  end.

Definition is_client_error (e : Exn) : bool :=
  (400 <=? http_status e) && (http_status e <=? 499).

(** ** schemas.py *)

Inductive Category : Type := article | video | guide | helpline | tool.

Record Resource : Type := {
  title : string;
  description : string;
  url : string;
  category : Category
}.

Record Assessment : Type := {
  key : string;
  a_title : string;
  a_description : string
}.

Record AssessmentResponse : Type := {
  assessment_key : string;
  answers : list Z;
  score : option Z;
  severity : option string;
  student_email : option string
}.

Inductive Mood : Type := great | good | okay | low | down.

Record MoodEntry : Type := {
  mood : Mood;
  note : option string;
  m_student_email : option string;
  timestamp : option string
}.

Record ContactMessage : Type := {
  c_name : string;
  email : string;
  subject : string;
  message : string
}.

Record TeamMember : Type := {
  name : string;
  role : string;
  bio : option string;
  avatar : option string
}.

(** A model instance handed to [create_document]. *)
Inductive Model : Type :=
| MAssessmentResponse (p : AssessmentResponse)
| MMoodEntry (e : MoodEntry)
| MContactMessage (m : ContactMessage).

(** Field validation as pydantic 2 does it on construction: a [str] field
    takes a string and nothing else, an [Optional[str]] field also [None],
    a [Literal] field one of its strings. A field that fails raises
    [ValidationError]. *)
Definition validate_str (v : PyVal) : Res string :=
  match v with
  | VStr s => Ok s
  | _ => Err ValidationError
  end.

Definition validate_opt_str (v : PyVal) : Res (option string) :=
  match v with
  | VNone => Ok None
  | VStr s => Ok (Some s)
  | _ => Err ValidationError
  end.

Definition category_of_string (s : string) : option Category :=
  if String.eqb s "article" then Some article
  else if String.eqb s "video" then Some video
  else if String.eqb s "guide" then Some guide
  else if String.eqb s "helpline" then Some helpline
  else if String.eqb s "tool" then Some tool
  else None.

Definition validate_category (v : PyVal) : Res Category :=
  match v with
  | VStr s =>
      match category_of_string s with
      | Some c => Ok c
      | None => Err ValidationError
      end
  | _ => Err ValidationError
  end.

(** [Resource(title=.., description=.., url=.., category=..)] *)
Definition Resource_init (t d u c : PyVal) : Res Resource :=
  t' ← validate_str t;
  d' ← validate_str d;
  u' ← validate_str u;
  c' ← validate_category c;
  mret {| title := t'; description := d'; url := u'; category := c' |}.

(** [TeamMember(name=.., role=.., bio=.., avatar=..)] *)
Definition TeamMember_init (n r b a : PyVal) : Res TeamMember :=
  n' ← validate_str n;
  r' ← validate_str r;
  b' ← validate_opt_str b;
  a' ← validate_opt_str a;
  mret {| name := n'; role := r'; bio := b'; avatar := a' |}.

(** The request-body check of [AssessmentResponse]: [assessment_key] is a
    [Literal] of the two keys, [student_email] an [EmailStr] whose format
    check [email_ok] belongs to the validation library. *)
Definition validate_AssessmentResponse (email_ok : string -> bool)
    (body : AssessmentResponse) : Res AssessmentResponse :=
  if negb (String.eqb (assessment_key body) "phq9"
           || String.eqb (assessment_key body) "gad7")
  then Err RequestValidationError
  else match student_email body with
       | Some e => if email_ok e then Ok body else Err RequestValidationError
       | None => Ok body
       end.

(** ** Handlers as programs over the store *)

(** A handler either returns, raises, or calls one of the two store
    operations and goes on with what the store answered. *)
Inductive Prog (A : Type) : Type :=
| Ret (a : A)
| Raise (e : Exn)
| CreateDocument (collection_name : string) (data : Model)
    (k : Res unit -> Prog A)
| GetDocuments (collection_name : string) (k : Res (list Doc) -> Prog A).
Arguments Ret {A} a.
Arguments Raise {A} e.
Arguments CreateDocument {A} collection_name data k.
Arguments GetDocuments {A} collection_name k.

Fixpoint prog_bind {A B : Type} (f : A -> Prog B) (p : Prog A) : Prog B :=
  match p with
  | Ret a => f a
  | Raise e => Raise e
  | CreateDocument c d k => CreateDocument c d (fun r => prog_bind f (k r))
  | GetDocuments c k => GetDocuments c (fun r => prog_bind f (k r))
  end.

#[global] Instance Prog_ret : MRet Prog := fun A a => Ret a.
#[global] Instance Prog_bind : MBind Prog := fun A B f p => prog_bind f p.

(** [try: body except Exception: handler] *)
Fixpoint try_except {A : Type} (body : Prog A) (handler : Exn -> Prog A)
    : Prog A :=
  match body with
  | Ret a => Ret a
  | Raise e => handler e
  | CreateDocument c d k =>
      CreateDocument c d (fun r => try_except (k r) handler)
  | GetDocuments c k => GetDocuments c (fun r => try_except (k r) handler)
  end.

Definition lift {A : Type} (r : Res A) : Prog A :=
  match r with
  | Ok a => Ret a
  | Err e => Raise e
  end.

(** The two calls as statements: an exception of the store propagates. *)
Definition create_document (collection_name : string) (data : Model)
    : Prog unit :=
  CreateDocument collection_name data lift.

Definition get_documents (collection_name : string) : Prog (list Doc) :=
  GetDocuments collection_name lift.

(** Modelled from the spec: the module [database] ([db],
    [create_document], [get_documents]) is not among the sources. The store
    is a collaborator with two operations, [createDocument(collectionName,
    record)], which returns nothing, and [getDocuments(collectionName)],
    which returns a sequence of records; either may fail. A store is any
    state with any two such operations; the record handed to
    [createDocument] is read, not changed. *)
Record Store (St : Type) : Type := {
  store_create : string -> Model -> St -> Res unit * St;
  store_get : string -> St -> Res (list Doc) * St
}.
Arguments store_create {St} _ _ _ _.
Arguments store_get {St} _ _ _.

(** A store call a handler made. *)
Inductive Call : Type :=
| CallCreate (collection_name : string) (data : Model)
| CallGet (collection_name : string).

(** Running a handler against a store gives its outcome, the store's state
    afterwards and the calls made, in order. *)
Fixpoint run {St A : Type} (db : Store St) (p : Prog A) (s : St)
    : Res A * St * list Call :=
  match p with
  | Ret a => (Ok a, s, [])
  | Raise e => (Err e, s, [])
  | CreateDocument c d k =>
      let '(r, s1) := store_create db c d s in
      let '(o, s2, t) := run db (k r) s1 in
      (o, s2, CallCreate c d :: t)
  | GetDocuments c k =>
      let '(r, s1) := store_get db c s in
      let '(o, s2, t) := run db (k r) s1 in
      (o, s2, CallGet c :: t)
  end.

Definition outcome {St A : Type} (x : Res A * St * list Call) : Res A :=
  x.1.1.

(** ** main.py: seed data and scoring *)

Definition ASSESSMENTS : gmap string Assessment :=
  <["phq9" := {| key := "phq9";
                 a_title := "PHQ-9 Depression Questionnaire";
                 a_description := "Screens for the presence and severity of depression over the last two weeks." |}]>
  (<["gad7" := {| key := "gad7";
                  a_title := "GAD-7 Anxiety Questionnaire";
                  a_description := "Measures severity of generalized anxiety over the last two weeks." |}]>
   ∅).

Definition PHQ9_WEIGHTS : list Z := [0; 1; 2; 3].
Definition GAD7_WEIGHTS : list Z := [0; 1; 2; 3].

Definition PHQ9_SEVERITY : list (Z * Z * string) :=
  [ (0, 4, "Minimal");
    (5, 9, "Mild");
    (10, 14, "Moderate");
    (15, 19, "Moderately Severe");
    (20, 27, "Severe") ].

Definition GAD7_SEVERITY : list (Z * Z * string) :=
  [ (0, 4, "Minimal");
    (5, 9, "Mild");
    (10, 14, "Moderate");
    (15, 21, "Severe") ].

Fixpoint severity_from_score (score : Z) (bands : list (Z * Z * string))
    : string :=
  match bands with
  | [] => "Unknown"
  | (lo, hi, label) :: rest =>
      if (lo <=? score) && (score <=? hi) then label
      else severity_from_score score rest
  end.

(** [l[i]] on a Python list: a negative index counts from the end, an index
    outside [-len l .. len l - 1] raises [IndexError]. *)
Definition py_getitem {A : Type} (l : list A) (i : Z) : Res A :=
  let n := Z.of_nat (length l) in
  let j := if i <? 0 then i + n else i in
  if (j <? 0) || (n <=? j) then Err IndexError
  else match l !! Z.to_nat j with
       | Some x => Ok x
       | None => Err IndexError
       end.

(** [sum(weights[a] for a in answers)]: the generator is consumed from the
    left, the running total starts at 0, the first failing index raises. *)
Fixpoint sum_weights (weights : list Z) (answers : list Z) (acc : Z)
    : Res Z :=
  match answers with
  | [] => Ok acc
  | a :: rest =>
      w ← py_getitem weights a;
      sum_weights weights rest (acc + w)
  end.

Definition len {A : Type} (l : list A) : Z := Z.of_nat (length l).

Definition submit_assessment (payload : AssessmentResponse)
    : Prog AssessmentResponse :=
  let key := assessment_key payload in
  if decide (ASSESSMENTS !! key = None)
  then Raise (HTTPException 400 "Unknown assessment key")
  else
    let required_len := if String.eqb key "phq9" then 9 else 7 in
    if negb (len (answers payload) =? required_len)
    then Raise (HTTPException 400
                  ("Expected " +:+ pretty required_len +:+ " answers"))
    else
      '(score, band) ←
        (if String.eqb key "phq9"
         then score ← lift (sum_weights PHQ9_WEIGHTS (answers payload) 0);
              mret (score, PHQ9_SEVERITY)
         else score ← lift (sum_weights GAD7_WEIGHTS (answers payload) 0);
              mret (score, GAD7_SEVERITY));
      let payload :=
        {| assessment_key := assessment_key payload;
           answers := answers payload;
           score := Some score;
           severity := Some (severity_from_score score band);
           student_email := student_email payload |} in
      _ ← try_except (create_document "assessmentresponse"
                        (MAssessmentResponse payload))
                     (fun _ => Ret tt);
      mret payload.

(** [POST /api/assessments/submit]: the body is checked against the schema
    before the handler runs; a body that fails is answered with 422. *)
Definition post_assessments_submit (email_ok : string -> bool)
    (body : AssessmentResponse) : Prog AssessmentResponse :=
  payload ← lift (validate_AssessmentResponse email_ok body);
  submit_assessment payload.

(** ** main.py: mood tracker *)

Definition add_mood (entry : MoodEntry) : Prog MoodEntry :=
  _ ← try_except (create_document "moodentry" (MMoodEntry entry))
                 (fun _ => Ret tt);
  mret entry.

(** [d.get(k, default)] on a document. *)
Definition doc_get (d : Doc) (k : string) (dflt : PyVal) : PyVal :=
  default dflt (d !! k).

(** A list cannot be a dict key; everything else here hashes. *)
Definition py_hashable (v : PyVal) : bool :=
  match v with
  | VList _ => false
  | _ => true
  end.

Definition int_of_bool (b : bool) : Z := if b then 1 else 0.

(** Python [==] between two dict keys: [bool] is a subclass of [int], so
    [True == 1] and [False == 0], and both hash alike. *)
Definition key_eqb (a b : PyVal) : bool :=
  match a, b with
  | VNone, VNone => true
  | VStr s, VStr t => String.eqb s t
  | VBool x, VBool y => int_of_bool x =? int_of_bool y
  | VBool x, VInt n => int_of_bool x =? n
  | VInt n, VBool y => n =? int_of_bool y
  | VInt n, VInt m => n =? m
  | _, _ => false
  end.

(** The [counts] dict: entries in insertion order, one per key. *)
Abbreviation PyDict := (list (PyVal * Z)).

Fixpoint dict_find (d : PyDict) (k : PyVal) : option Z :=
  match d with
  | [] => None
  | (k', v) :: rest => if key_eqb k' k then Some v else dict_find rest k
  end.

(** [d.get(k, default)]: hashing [k] comes first. *)
Definition dict_get (d : PyDict) (k : PyVal) (dflt : Z) : Res Z :=
  if py_hashable k then Ok (default dflt (dict_find d k))
  else Err TypeError.

(** An existing entry keeps its key object and its place. *)
Fixpoint dict_update (d : PyDict) (k : PyVal) (v : Z) : PyDict :=
  match d with
  | [] => [(k, v)]
  | (k', v') :: rest =>
      if key_eqb k' k then (k', v) :: rest
      else (k', v') :: dict_update rest k v
  end.

(** [d[k] = v] *)
Definition dict_setitem (d : PyDict) (k : PyVal) (v : Z) : Res PyDict :=
  if py_hashable k then Ok (dict_update d k v) else Err TypeError.

(** The loop [for d in docs: m = d.get("mood", "unknown");
    counts[m] = counts.get(m, 0) + 1]. *)
Fixpoint tally (docs : list Doc) (counts : PyDict) : Res PyDict :=
  match docs with
  | [] => Ok counts
  | d :: rest =>
      let m := doc_get d "mood" (VStr "unknown") in
      c ← dict_get counts m 0;
      counts' ← dict_setitem counts m (c + 1);
      tally rest counts'
  end.

Record MoodStats : Type := {
  total : Z;
  counts : PyDict
}.

Definition mood_stats : Prog MoodStats :=
  try_except
    (docs ← get_documents "moodentry";
     let total := len docs in
     counts ← lift (tally docs []);
     mret {| total := total; counts := counts |})
    (fun _ => Ret {| total := 0; counts := [] |}).

(** ** main.py: resources and team *)

Definition Resource_of_doc (d : Doc) : Res Resource :=
  Resource_init (doc_get d "title" (VStr ""))
                (doc_get d "description" (VStr ""))
                (doc_get d "url" (VStr ""))
                (doc_get d "category" (VStr "article")).

(** The loop [for d in docs: mapped.append(Resource(..))]. *)
Fixpoint map_resources (docs : list Doc) (mapped : list Resource)
    : Res (list Resource) :=
  match docs with
  | [] => Ok mapped
  | d :: rest =>
      r ← Resource_of_doc d;
      map_resources rest (mapped ++ [r])
  end.

Definition DEFAULT_RESOURCES : list Resource :=
  [ {| title := "Coping with Exam Stress (IT)";
       description := "Practical steps for managing deadlines and exams.";
       url := "https://www.mind.org.uk/";
       category := guide |};
    {| title := "Understanding Burnout";
       description := "Signs and strategies for students in tech.";
       url := "https://www.helpguide.org/";
       category := article |};
    {| title := "Breathing Exercise";
       description := "4-7-8 guided breathing timer.";
       url := "https://www.boxbreathingapp.com/";
       category := tool |};
    {| title := "24/7 Helpline";
       description := "Immediate assistance if you’re in crisis.";
       url := "https://988lifeline.org/";
       category := helpline |} ].

(** The [try] block returns from the handler when [mapped] is not empty;
    [None] stands for falling through to the default seed. *)
Definition get_resources : Prog (list Resource) :=
  found ← try_except
            (docs ← get_documents "resource";
             mapped ← lift (map_resources docs []);
             match mapped with
             | [] => mret None
             | _ :: _ => mret (Some mapped)
             end)
            (fun _ => Ret None);
  match found with
  | Some mapped => mret mapped
  | None => mret DEFAULT_RESOURCES
  end.

(** [d.get(k)]: [None] when the field is absent. *)
Definition TeamMember_of_doc (d : Doc) : Res TeamMember :=
  TeamMember_init (doc_get d "name" (VStr ""))
                  (doc_get d "role" (VStr ""))
                  (doc_get d "bio" VNone)
                  (doc_get d "avatar" VNone).

Fixpoint map_team (docs : list Doc) (out : list TeamMember)
    : Res (list TeamMember) :=
  match docs with
  | [] => Ok out
  | d :: rest =>
      m ← TeamMember_of_doc d;
      map_team rest (out ++ [m])
  end.

Definition DEFAULT_TEAM : list TeamMember :=
  [ {| name := "Ava Patel"; role := "Clinical Advisor";
       bio := Some "Guides assessment criteria"; avatar := None |};
    {| name := "Liam Chen"; role := "Data Analyst";
       bio := Some "Turns mood logs into insight"; avatar := None |};
    {| name := "Sara Gomez"; role := "Frontend";
       bio := Some "Designs interactive tools"; avatar := None |};
    {| name := "Noah Singh"; role := "Backend";
       bio := Some "APIs and data layer"; avatar := None |} ].

Definition get_team : Prog (list TeamMember) :=
  found ← try_except
            (docs ← get_documents "teammember";
             out ← lift (map_team docs []);
             match out with
             | [] => mret None
             | _ :: _ => mret (Some out)
             end)
            (fun _ => Ret None);
  match found with
  | Some out => mret out
  | None => mret DEFAULT_TEAM
  end.

(** ** main.py: contact *)

Definition send_contact (msg : ContactMessage) : Prog Doc :=
  _ ← try_except (create_document "contactmessage" (MContactMessage msg))
                 (fun _ => Ret tt);
  mret {[ "ok" := VBool true ]}.

(** ** The specification's vocabulary *)

(** A valid submission: [phq9] with 9 answers or [gad7] with 7, every answer
    in 0..3. *)
Definition valid_submission (p : AssessmentResponse) : bool :=
  ((String.eqb (assessment_key p) "phq9" && (len (answers p) =? 9))
   || (String.eqb (assessment_key p) "gad7" && (len (answers p) =? 7)))
  && forallb (fun a => (0 <=? a) && (a <=? 3)) (answers p).

(** A submission that passes the key check and the answer-count check. *)
Definition passes_checks (p : AssessmentResponse) : bool :=
  (String.eqb (assessment_key p) "phq9" && (len (answers p) =? 9))
  || (String.eqb (assessment_key p) "gad7" && (len (answers p) =? 7)).

Definition sum_answers (l : list Z) : Z := foldr Z.add 0 l.

(** The band tables as the specification lists them. *)
Definition phq9_band (score : Z) : option string :=
  if decide (0 <= score <= 4) then Some "Minimal"
  else if decide (5 <= score <= 9) then Some "Mild"
  else if decide (10 <= score <= 14) then Some "Moderate"
  else if decide (15 <= score <= 19) then Some "Moderately Severe"
  else if decide (20 <= score <= 27) then Some "Severe"
  else None.

Definition gad7_band (score : Z) : option string :=
  if decide (0 <= score <= 4) then Some "Minimal"
  else if decide (5 <= score <= 9) then Some "Mild"
  else if decide (10 <= score <= 14) then Some "Moderate"
  else if decide (15 <= score <= 21) then Some "Severe"
  else None.

Definition band_of (key : string) (score : Z) : option string :=
  if String.eqb key "phq9" then phq9_band score else gad7_band score.

(** The mood value a record counts under: its [mood] field, or ["unknown"]
    when it has none. *)
Definition mood_of (d : Doc) : PyVal :=
  match d !! "mood" with
  | Some v => v
  | None => VStr "unknown"
  end.

(** How often the mood value [m] occurs among the records. *)
Fixpoint occurrences (m : PyVal) (docs : list Doc) : Z :=
  match docs with
  | [] => 0
  | d :: rest =>
      (if key_eqb (mood_of d) m then 1 else 0) + occurrences m rest
  end.

(** The dict holds, for every mood value, how often it occurred among the
    records seen so far, and no entry for a value that did not occur. *)
Definition counts_of (c : PyDict) (seen : list Doc) : Prop :=
  forall m : PyVal,
    dict_find c m
    = if occurrences m seen =? 0 then None else Some (occurrences m seen).

(** ** Stores and requests to evaluate on *)

(** Modelled from the spec: with the underlying handle absent (the store
    unconfigured) every operation behaves as if it failed. *)
Definition unset_store : Store unit := {|
  store_create := fun _ _ s => (Err (StoreError "Database not available"), s);
  store_get := fun _ s => (Err (StoreError "Database not available"), s)
|}.

(** A store that answers every read with [docs] and accepts every write,
    counting them. *)
Definition canned_store (docs : list Doc) : Store nat := {|
  store_create := fun _ _ n => (Ok tt, S n);
  store_get := fun _ n => (Ok docs, n)
|}.

Definition submission (k : string) (a : list Z) : AssessmentResponse :=
  {| assessment_key := k; answers := a; score := None; severity := None;
     student_email := None |}.

Definition phq9_negative : AssessmentResponse :=
  submission "phq9" [-1; 0; 0; 0; 0; 0; 0; 0; 0].

Definition doc_burnout : Doc :=
  <["title" := VStr "Understanding Burnout"]>
  (<["description" := VStr "Signs and strategies"]>
   (<["url" := VStr "https://www.helpguide.org/"]>
    (<["category" := VStr "article"]> ∅))).

Definition burnout_resource : Resource :=
  {| title := "Understanding Burnout";
     description := "Signs and strategies";
     url := "https://www.helpguide.org/";
     category := article |}.

Definition doc_podcast : Doc :=
  <["title" := VStr "Sleep and Study"]>
  (<["category" := VStr "podcast"]> ∅).

Definition doc_member : Doc :=
  <["name" := VStr "Ava Patel"]> (<["role" := VStr "Clinical Advisor"]> ∅).

Definition member_ava : TeamMember :=
  {| name := "Ava Patel"; role := "Clinical Advisor";
     bio := None; avatar := None |}.

Definition doc_nameless : Doc :=
  <["name" := VInt 7]> ∅.

Definition mood_docs : list Doc :=
  [ <["mood" := VStr "good"]> ∅;
    <["note" := VStr "no mood here"]> ∅;
    <["mood" := VStr "low"]> ∅;
    <["mood" := VStr "good"]> ∅ ].

Definition mood_docs_unhashable : list Doc :=
  [ <["mood" := VStr "good"]> ∅;
    <["mood" := VList [VStr "good"; VStr "low"]]> ∅ ].

(** ** Vocabulary of the lemmas on submissions *)

(** The weight table and the band table [submit_assessment] picks for a
    key, and the payload after its two assignments. *)

Definition weights_of (key : string) : list Z :=
  if String.eqb key "phq9" then PHQ9_WEIGHTS else GAD7_WEIGHTS.

Definition bands_of (key : string) : list (Z * Z * string) :=
  if String.eqb key "phq9" then PHQ9_SEVERITY else GAD7_SEVERITY.

Definition scored (p : AssessmentResponse) (sc : Z) : AssessmentResponse :=
  {| assessment_key := assessment_key p;
     answers := answers p;
     score := Some sc;
     severity := Some (severity_from_score sc (bands_of (assessment_key p)));
     student_email := student_email p |}.

(** ** Further vocabulary: submissions *)

(** The key check and the count [submit_assessment] asks for. *)
Definition known_key (k : string) : bool :=
  String.eqb k "phq9" || String.eqb k "gad7".

Definition required_len (k : string) : Z :=
  if String.eqb k "phq9" then 9 else 7.

(** The indices a four-entry Python list accepts. *)
Definition in_table (a : Z) : bool := (-4 <=? a) && (a <=? 3).

(** The position of the first band that holds [score]. *)
Fixpoint band_index (score : Z) (bands : list (Z * Z * string))
    : option nat :=
  match bands with
  | [] => None
  | (lo, hi, _) :: rest =>
      if (lo <=? score) && (score <=? hi) then Some 0%nat
      else S <$> band_index score rest
  end.

(** What the caller learns from a submission: the score and severity of
    the returned record, or the exception. *)
Definition verdict (o : Res AssessmentResponse)
    : Res (option Z * option string) :=
  match o with
  | Ok r => Ok (score r, severity r)
  | Err e => Err e
  end.

(** ** Further vocabulary: stored records *)



(** The sum of the values of a dict. *)
Definition dict_total (c : PyDict) : Z := foldr (fun kv acc => kv.2 + acc) 0 c.

(** No two entries of the dict have keys that Python holds equal. *)
Fixpoint one_entry_per_key (c : PyDict) : Prop :=
  match c with
  | [] => True
  | (k, _) :: rest => dict_find rest k = None /\ one_entry_per_key rest
  end.

(** ** Further vocabulary: collections *)

(** The class of a model instance, and [str.lower] on ASCII names. *)
Definition class_name (m : Model) : string :=
  match m with
  | MAssessmentResponse _ => "AssessmentResponse"
  | MMoodEntry _ => "MoodEntry"
  | MContactMessage _ => "ContactMessage"
  end.

Definition lower_ascii (a : Ascii.ascii) : Ascii.ascii :=
  let n := Ascii.nat_of_ascii a in
  if ((65 <=? n) && (n <=? 90))%nat then Ascii.ascii_of_nat (n + 32) else a.

Fixpoint py_lower (s : string) : string :=
  match s with
  | String.EmptyString => String.EmptyString
  | String.String a rest => String.String (lower_ascii a) (py_lower rest)
  end.

(** A write that goes to the collection named after the class of the
    record written, as the docstring of [schemas.py] lays down. *)
Definition own_collection (c : Call) : Prop :=
  match c with
  | CallCreate collection_name data =>
      collection_name = py_lower (class_name data)
  | CallGet _ => False
  end.

(** ** main.py: the remaining handlers *)

(** [ASSESSMENTS] as the dict literal lists it; a dict keeps this order. *)
Definition ASSESSMENTS_items : list (string * Assessment) :=
  [ ("phq9", {| key := "phq9";
                a_title := "PHQ-9 Depression Questionnaire";
                a_description := "Screens for the presence and severity of depression over the last two weeks." |});
    ("gad7", {| key := "gad7";
                a_title := "GAD-7 Anxiety Questionnaire";
                a_description := "Measures severity of generalized anxiety over the last two weeks." |}) ].

(** [list(ASSESSMENTS.values())] *)
Definition list_assessments : list Assessment := ASSESSMENTS_items.*2.









(** ** Indexing and summing *)

Lemma ASSESSMENTS_lookup (k : string) :
  ASSESSMENTS !! k = None <-> k <> "phq9" /\ k <> "gad7".
Proof.
  unfold ASSESSMENTS. split.
  - intros H. split; intros ->; vm_compute in H; discriminate.
  - intros [H1 H2].
    rewrite lookup_insert_ne by congruence.
    rewrite lookup_insert_ne by congruence.
    apply lookup_empty.
Qed.

Lemma py_getitem_weights (a : Z) :
  0 <= a <= 3 -> py_getitem [0; 1; 2; 3] a = Ok a.
Proof.
  intros H.
  assert (a = 0 \/ a = 1 \/ a = 2 \/ a = 3) as [-> | [-> | [-> | ->]]] by lia;
    reflexivity.
Qed.

Lemma py_getitem_weights_negative (a : Z) :
  -4 <= a <= -1 -> py_getitem [0; 1; 2; 3] a = Ok (a + 4).
Proof.
  intros H.
  assert (a = -4 \/ a = -3 \/ a = -2 \/ a = -1) as [-> | [-> | [-> | ->]]]
    by lia; reflexivity.
Qed.

Lemma py_getitem_out (A : Type) (l : list A) (i : Z) :
  i < - len l \/ len l <= i -> py_getitem l i = Err IndexError.
Proof.
  unfold py_getitem, len. intros H.
  destruct (i <? 0) eqn:Hi.
  - apply Z.ltb_lt in Hi.
    destruct (i + Z.of_nat (length l) <? 0) eqn:Hj; [reflexivity |].
    apply Z.ltb_ge in Hj. lia.
  - apply Z.ltb_ge in Hi.
    destruct (i <? 0) eqn:Hj; [apply Z.ltb_lt in Hj; lia |].
    destruct (Z.of_nat (length l) <=? i) eqn:Hk; [reflexivity |].
    apply Z.leb_gt in Hk. lia.
Qed.

Lemma py_getitem_err (A : Type) (l : list A) (i : Z) (e : Exn) :
  py_getitem l i = Err e -> e = IndexError.
Proof.
  unfold py_getitem. intros H.
  repeat case_match; congruence.
Qed.

Lemma sum_weights_in_range (l : list Z) (acc : Z) :
  Forall (fun a => 0 <= a <= 3) l ->
  sum_weights [0; 1; 2; 3] l acc = Ok (acc + sum_answers l).
Proof.
  intros H. revert acc.
  induction H as [| a l Ha _ IH]; intros acc; simpl.
  - f_equal. lia.
  - rewrite py_getitem_weights by done. simpl.
    rewrite IH. f_equal. lia.
Qed.

Lemma sum_weights_out_of_range (l : list Z) (acc : Z) :
  Exists (fun a => a < -4 \/ 3 < a) l ->
  sum_weights [0; 1; 2; 3] l acc = Err IndexError.
Proof.
  intros H. revert acc.
  induction H as [a l Ha | a l _ IH]; intros acc; simpl.
  - rewrite py_getitem_out by (unfold len; simpl; lia). reflexivity.
  - destruct (py_getitem [0; 1; 2; 3] a) as [w | e] eqn:Hw; simpl.
    + apply IH.
    + by rewrite (py_getitem_err _ _ _ _ Hw).
Qed.

Lemma sum_answers_bounds (l : list Z) :
  Forall (fun a => 0 <= a <= 3) l -> 0 <= sum_answers l <= 3 * len l.
Proof.
  unfold len. induction 1 as [| a l Ha _ IH]; simpl; lia.
Qed.

Lemma valid_submission_spec (p : AssessmentResponse) :
  valid_submission p = true <->
  (assessment_key p = "phq9" /\ len (answers p) = 9
   \/ assessment_key p = "gad7" /\ len (answers p) = 7)
  /\ Forall (fun a => 0 <= a <= 3) (answers p).
Proof.
  unfold valid_submission.
  rewrite andb_true_iff, orb_true_iff, !andb_true_iff, !String.eqb_eq,
    !Z.eqb_eq, forallb_forall, Forall_forall.
  split; intros [Hk Ha]; (split; [exact Hk |]).
  - intros a Hin. apply list_elem_of_In, Ha in Hin.
    apply andb_true_iff in Hin as [H0 H3].
    apply Z.leb_le in H0, H3. lia.
  - intros a Hin. apply list_elem_of_In, Ha in Hin.
    apply andb_true_iff. split; apply Z.leb_le; lia.
Qed.

Lemma passes_checks_spec (p : AssessmentResponse) :
  passes_checks p = true <->
  (assessment_key p = "phq9" /\ len (answers p) = 9
   \/ assessment_key p = "gad7" /\ len (answers p) = 7).
Proof.
  unfold passes_checks.
  by rewrite orb_true_iff, !andb_true_iff, !String.eqb_eq, !Z.eqb_eq.
Qed.

(** ** Running a submission *)

Section Submit.
Context {St : Type} (db : Store St).

Lemma run_submit_scored (p : AssessmentResponse) (s : St) (sc : Z) :
  passes_checks p = true ->
  sum_weights (weights_of (assessment_key p)) (answers p) 0 = Ok sc ->
  run db (submit_assessment p) s
  = (Ok (scored p sc),
     (store_create db "assessmentresponse"
        (MAssessmentResponse (scored p sc)) s).2,
     [CallCreate "assessmentresponse" (MAssessmentResponse (scored p sc))]).
Proof.
  intros Hp Hsum. apply passes_checks_spec in Hp.
  unfold submit_assessment, scored, weights_of, bands_of in *.
  destruct (decide (ASSESSMENTS !! assessment_key p = None)) as [Hn | _].
  { apply ASSESSMENTS_lookup in Hn as [H9 H7].
    destruct Hp as [[Hk _] | [Hk _]]; congruence. }
  destruct Hp as [[Hk Hl] | [Hk Hl]]; rewrite Hk in *; simpl in *;
    rewrite Hl; simpl; rewrite Hsum; simpl;
    destruct (store_create db _ _ s) as [[[] | e] s1]; reflexivity.
Qed.

Lemma run_submit_raises (p : AssessmentResponse) (s : St) (e : Exn) :
  passes_checks p = true ->
  sum_weights (weights_of (assessment_key p)) (answers p) 0 = Err e ->
  run db (submit_assessment p) s = (Err e, s, []).
Proof.
  intros Hp Hsum. apply passes_checks_spec in Hp.
  unfold submit_assessment, weights_of in *.
  destruct (decide (ASSESSMENTS !! assessment_key p = None)) as [Hn | _].
  { apply ASSESSMENTS_lookup in Hn as [H9 H7].
    destruct Hp as [[Hk _] | [Hk _]]; congruence. }
  destruct Hp as [[Hk Hl] | [Hk Hl]]; rewrite Hk in *; simpl in *;
    rewrite Hl; simpl; rewrite Hsum; reflexivity.
Qed.
End Submit.

(** ** Bands *)

Lemma severity_phq9 (sc : Z) :
  0 <= sc <= 27 ->
  phq9_band sc = Some (severity_from_score sc PHQ9_SEVERITY).
Proof.
  intros H. unfold phq9_band. simpl.
  repeat case_decide;
    repeat (match goal with
            | |- context [(?a <=? ?b)] =>
                destruct (Z.leb_spec a b); simpl
            end);
    first [reflexivity | lia].
Qed.

Lemma severity_gad7 (sc : Z) :
  0 <= sc <= 21 ->
  gad7_band sc = Some (severity_from_score sc GAD7_SEVERITY).
Proof.
  intros H. unfold gad7_band. simpl.
  repeat case_decide;
    repeat (match goal with
            | |- context [(?a <=? ?b)] =>
                destruct (Z.leb_spec a b); simpl
            end);
    first [reflexivity | lia].
Qed.

Lemma severity_from_score_band (sc : Z) (bands : list (Z * Z * string)) :
  severity_from_score sc bands <> "Unknown" ->
  exists lo hi, (lo, hi, severity_from_score sc bands) ∈ bands
                /\ lo <= sc <= hi.
Proof.
  induction bands as [| [[lo hi] label] rest IH]; simpl; [done |].
  destruct (Z.leb_spec lo sc); simpl.
  - destruct (Z.leb_spec sc hi); simpl.
    + intros _. exists lo, hi. split; [left | lia].
    + intros H1. destruct (IH H1) as (lo' & hi' & Hin & Hb).
      exists lo', hi'. split; [by right | done].
  - intros H1. destruct (IH H1) as (lo' & hi' & Hin & Hb).
    exists lo', hi'. split; [by right | done].
Qed.

Lemma band_label_known (key : string) (sc : Z) (label : string) :
  band_of key sc = Some label -> label <> "Unknown".
Proof.
  unfold band_of, phq9_band, gad7_band.
  repeat case_match; intros [= <-]; discriminate.
Qed.

(** ** Submissions: score and severity *)

(** C1. A valid submission (phq9 with 9 answers, gad7 with 7, all in 0..3)
    is answered with a record whose score is the sum of the raw answers,
    whatever the store does: the weight table gives each answer back. *)
Theorem submit_score_is_sum {St : Type} (db : Store St) (s : St)
    (p : AssessmentResponse) :
  valid_submission p = true ->
  exists r : AssessmentResponse,
    outcome (run db (submit_assessment p) s) = Ok r
    /\ score r = Some (sum_answers (answers p))
    /\ Forall (fun a => py_getitem (weights_of (assessment_key p)) a = Ok a)
         (answers p).
Proof.
  intros Hv. apply valid_submission_spec in Hv as [Hk Ha].
  assert (passes_checks p = true) as Hp by by apply passes_checks_spec.
  assert (weights_of (assessment_key p) = [0; 1; 2; 3]) as Hw.
  { unfold weights_of. by case_match. }
  exists (scored p (sum_answers (answers p))).
  split; [| split].
  - rewrite (run_submit_scored db p s (sum_answers (answers p)) Hp);
      [done |].
    rewrite Hw. by rewrite sum_weights_in_range.
  - done.
  - rewrite Hw. eapply Forall_impl; [exact Ha |].
    intros a. apply py_getitem_weights.
Qed.

Lemma submit_score_is_sum_witness :
  valid_submission (submission "phq9" [0; 1; 2; 3; 0; 1; 2; 3; 3]) = true
  /\ exists r : AssessmentResponse,
       outcome (run unset_store
                  (submit_assessment
                     (submission "phq9" [0; 1; 2; 3; 0; 1; 2; 3; 3])) tt)
       = Ok r
       /\ score r = Some 15
       /\ Forall (fun a => py_getitem (weights_of "phq9") a = Ok a)
            [0; 1; 2; 3; 0; 1; 2; 3; 3].
Proof.
  split; [reflexivity |].
  apply (submit_score_is_sum unset_store tt
           (submission "phq9" [0; 1; 2; 3; 0; 1; 2; 3; 3])).
  reflexivity.
Defined.

(** C2. For a valid submission the returned severity is the label of the
    band that holds the computed score, by the PHQ-9 table for phq9 and the
    GAD-7 table for gad7; it is the label of an entry of the handler's own
    table whose bounds enclose the score, and never the fallback
    "Unknown". *)
Theorem submit_severity_in_band {St : Type} (db : Store St) (s : St)
    (p : AssessmentResponse) :
  valid_submission p = true ->
  exists (r : AssessmentResponse) (sc : Z) (label : string),
    outcome (run db (submit_assessment p) s) = Ok r
    /\ score r = Some sc
    /\ severity r = Some label
    /\ band_of (assessment_key p) sc = Some label
    /\ label <> "Unknown"
    /\ exists lo hi : Z,
         (lo, hi, label) ∈ bands_of (assessment_key p) /\ lo <= sc <= hi.
Proof.
  intros Hv. apply valid_submission_spec in Hv as [Hk Ha].
  assert (passes_checks p = true) as Hp by by apply passes_checks_spec.
  pose proof (sum_answers_bounds _ Ha) as Hb.
  set (sc := sum_answers (answers p)) in *.
  assert (sum_weights (weights_of (assessment_key p)) (answers p) 0 = Ok sc)
    as Hsum.
  { replace (weights_of (assessment_key p)) with [0; 1; 2; 3]
      by (unfold weights_of; by case_match).
    by rewrite sum_weights_in_range. }
  assert (band_of (assessment_key p) sc
          = Some (severity_from_score sc (bands_of (assessment_key p))))
    as Hband.
  { unfold band_of, bands_of.
    destruct Hk as [[Hk Hl] | [Hk Hl]]; rewrite Hk; simpl.
    - apply severity_phq9. lia.
    - apply severity_gad7. lia. }
  exists (scored p sc), sc,
    (severity_from_score sc (bands_of (assessment_key p))).
  rewrite (run_submit_scored db p s sc Hp Hsum).
  repeat split; try done.
  - by eapply band_label_known.
  - apply severity_from_score_band. by eapply band_label_known.
Qed.

Lemma submit_severity_in_band_witness :
  valid_submission (submission "gad7" [3; 3; 3; 3; 3; 3; 3]) = true
  /\ exists (r : AssessmentResponse) (sc : Z) (label : string),
       outcome (run (canned_store [])
                  (submit_assessment
                     (submission "gad7" [3; 3; 3; 3; 3; 3; 3])) 0%nat)
       = Ok r
       /\ score r = Some sc
       /\ severity r = Some label
       /\ band_of "gad7" sc = Some label
       /\ label <> "Unknown"
       /\ exists lo hi : Z,
            (lo, hi, label) ∈ bands_of "gad7" /\ lo <= sc <= hi.
Proof.
  split; [reflexivity |].
  apply (submit_severity_in_band (canned_store []) 0%nat
           (submission "gad7" [3; 3; 3; 3; 3; 3; 3])).
  reflexivity.
Defined.

Example severity_boundaries :
  severity_from_score 4 PHQ9_SEVERITY = "Minimal"
  /\ severity_from_score 5 PHQ9_SEVERITY = "Mild"
  /\ severity_from_score 27 PHQ9_SEVERITY = "Severe"
  /\ severity_from_score 14 GAD7_SEVERITY = "Moderate"
  /\ severity_from_score 15 GAD7_SEVERITY = "Severe"
  /\ severity_from_score 21 GAD7_SEVERITY = "Severe"
  /\ severity_from_score 28 PHQ9_SEVERITY = "Unknown".
Proof. repeat split. Qed.

(** ** Submissions: answers outside 0..3 *)

(** C3, as stated, fails: a phq9 submission of nine answers whose first is
    -1 passes both checks and has an answer outside 0..3, yet the indexing
    does not raise. Python reads [PHQ9_WEIGHTS[-1]] from the end of the
    table, the handler returns score 3 and severity "Minimal", and the
    record is handed to the store. *)
Lemma submit_negative_answer_is_scored :
  passes_checks phq9_negative = true
  /\ Exists (fun a => a < 0 \/ 3 < a) (answers phq9_negative)
  /\ run (canned_store []) (submit_assessment phq9_negative) 0%nat
     = (Ok (scored phq9_negative 3), 1%nat,
        [CallCreate "assessmentresponse"
           (MAssessmentResponse (scored phq9_negative 3))])
  /\ severity (scored phq9_negative 3) = Some "Minimal"
  /\ outcome (run (canned_store []) (submit_assessment phq9_negative) 0%nat)
     <> Err IndexError.
Proof.
  split; [reflexivity |].
  split; [apply Exists_cons_hd; lia |].
  split; [reflexivity |].
  split; [reflexivity |].
  discriminate.
Qed.

(** C3, amended. A submission that passes the key and answer-count checks
    and holds some answer greater than 3 or less than -4 fails at the
    weight-table indexing step: the handler raises [IndexError], which is
    no client validation error, and the store is not called. *)
Theorem submit_out_of_table_raises {St : Type} (db : Store St) (s : St)
    (p : AssessmentResponse) :
  passes_checks p = true ->
  Exists (fun a => a < -4 \/ 3 < a) (answers p) ->
  run db (submit_assessment p) s = (Err IndexError, s, [])
  /\ is_client_error IndexError = false.
Proof.
  intros Hp Hex. split; [| reflexivity].
  apply run_submit_raises; [done |].
  replace (weights_of (assessment_key p)) with [0; 1; 2; 3]
    by (unfold weights_of; by case_match).
  by apply sum_weights_out_of_range.
Qed.

Lemma submit_out_of_table_raises_witness :
  passes_checks (submission "gad7" [0; 1; 4; 0; 0; 0; 0]) = true
  /\ Exists (fun a => a < -4 \/ 3 < a) [0; 1; 4; 0; 0; 0; 0]
  /\ run unset_store
       (submit_assessment (submission "gad7" [0; 1; 4; 0; 0; 0; 0])) tt
     = (Err IndexError, tt, [])
  /\ is_client_error IndexError = false.
Proof.
  assert (Exists (fun a => a < -4 \/ 3 < a) [0; 1; 4; 0; 0; 0; 0]) as Hex.
  { apply Exists_cons_tl, Exists_cons_tl, Exists_cons_hd. lia. }
  split; [reflexivity |].
  split; [exact Hex |].
  exact (submit_out_of_table_raises unset_store tt
           (submission "gad7" [0; 1; 4; 0; 0; 0; 0]) eq_refl Hex).
Defined.

(** ** Submissions: rejected requests *)

(** C4. A submission whose key is neither phq9 nor gad7 fails with a
    client error and makes no store call: the handler raises the 400
    "Unknown assessment key" before anything else, and at the endpoint the
    schema check of the body already answers 422. *)
Theorem submit_unknown_key {St : Type} (db : Store St) (s : St)
    (email_ok : string -> bool) (p : AssessmentResponse) :
  assessment_key p <> "phq9" ->
  assessment_key p <> "gad7" ->
  exists e1 e2 : Exn,
    run db (submit_assessment p) s = (Err e1, s, [])
    /\ e1 = HTTPException 400 "Unknown assessment key"
    /\ run db (post_assessments_submit email_ok p) s = (Err e2, s, [])
    /\ is_client_error e1 = true
    /\ is_client_error e2 = true.
Proof.
  intros H9 H7.
  exists (HTTPException 400 "Unknown assessment key"), RequestValidationError.
  assert (ASSESSMENTS !! assessment_key p = None) as Hn
    by by apply ASSESSMENTS_lookup.
  apply String.eqb_neq in H9, H7.
  repeat split.
  - unfold submit_assessment. by rewrite decide_True.
  - unfold post_assessments_submit, validate_AssessmentResponse.
    by rewrite H9, H7.
Qed.

Lemma submit_unknown_key_witness :
  "bdi" <> "phq9" /\ "bdi" <> "gad7"
  /\ exists e1 e2 : Exn,
       run unset_store (submit_assessment (submission "bdi" [1; 2])) tt
       = (Err e1, tt, [])
       /\ e1 = HTTPException 400 "Unknown assessment key"
       /\ run unset_store
            (post_assessments_submit (fun _ => true) (submission "bdi" [1; 2]))
            tt
          = (Err e2, tt, [])
       /\ is_client_error e1 = true
       /\ is_client_error e2 = true.
Proof.
  assert ("bdi" <> "phq9") as H9 by discriminate.
  assert ("bdi" <> "gad7") as H7 by discriminate.
  split; [exact H9 |].
  split; [exact H7 |].
  exact (submit_unknown_key unset_store tt (fun _ => true)
           (submission "bdi" [1; 2]) H9 H7).
Defined.

(** C5. A submission with a known key and the wrong number of answers
    fails with the client error 400 whose detail names the expected count,
    "Expected 9 answers" for phq9 and "Expected 7 answers" for gad7, and
    makes no store call. *)
Theorem submit_wrong_count {St : Type} (db : Store St) (s : St)
    (p : AssessmentResponse) (detail : string) :
  (assessment_key p = "phq9" /\ len (answers p) <> 9
   /\ detail = "Expected 9 answers")
  \/ (assessment_key p = "gad7" /\ len (answers p) <> 7
      /\ detail = "Expected 7 answers") ->
  run db (submit_assessment p) s = (Err (HTTPException 400 detail), s, [])
  /\ is_client_error (HTTPException 400 detail) = true.
Proof.
  intros H. split; [| reflexivity].
  unfold submit_assessment.
  destruct H as [(Hk & Hl & ->) | (Hk & Hl & ->)]; rewrite Hk;
    (rewrite decide_False
       by (rewrite ASSESSMENTS_lookup; intros [? ?]; congruence));
    simpl; apply Z.eqb_neq in Hl; by rewrite Hl.
Qed.

Lemma submit_wrong_count_witness :
  (run unset_store
     (submit_assessment (submission "phq9" [0; 1; 2; 3; 0; 1; 2; 3])) tt
   = (Err (HTTPException 400 "Expected 9 answers"), tt, [])
   /\ is_client_error (HTTPException 400 "Expected 9 answers") = true)
  /\ (run unset_store
        (submit_assessment (submission "gad7" [0; 1; 2; 3; 0; 1; 2; 3])) tt
      = (Err (HTTPException 400 "Expected 7 answers"), tt, [])
      /\ is_client_error (HTTPException 400 "Expected 7 answers") = true).
Proof.
  split.
  - apply (submit_wrong_count unset_store tt
             (submission "phq9" [0; 1; 2; 3; 0; 1; 2; 3])).
    left. repeat split. discriminate.
  - apply (submit_wrong_count unset_store tt
             (submission "gad7" [0; 1; 2; 3; 0; 1; 2; 3])).
    right. repeat split. discriminate.
Defined.

(** C6. The returned score and severity are computed from the key and the
    answers alone: two valid submissions that differ only in the score and
    severity the client sent run alike against any store, and both are
    answered with the same record, its score the sum of the answers and its
    severity the label of that score. *)
Theorem submit_ignores_client_score {St : Type} (db : Store St) (s : St)
    (p1 p2 : AssessmentResponse) :
  valid_submission p1 = true ->
  assessment_key p1 = assessment_key p2 ->
  answers p1 = answers p2 ->
  student_email p1 = student_email p2 ->
  exists r : AssessmentResponse,
    outcome (run db (submit_assessment p1) s) = Ok r
    /\ outcome (run db (submit_assessment p2) s) = Ok r
    /\ run db (submit_assessment p1) s = run db (submit_assessment p2) s
    /\ score r = Some (sum_answers (answers p1))
    /\ severity r
       = Some (severity_from_score (sum_answers (answers p1))
                 (bands_of (assessment_key p1))).
Proof.
  intros Hv Hk Ha He.
  assert (valid_submission p2 = true) as Hv2.
  { unfold valid_submission in *. by rewrite <- Hk, <- Ha. }
  apply valid_submission_spec in Hv as [Hk1 Ha1].
  apply valid_submission_spec in Hv2 as [Hk2 Ha2].
  assert (passes_checks p1 = true) as Hp1 by by apply passes_checks_spec.
  assert (passes_checks p2 = true) as Hp2 by by apply passes_checks_spec.
  set (sc := sum_answers (answers p1)).
  assert (forall p, answers p = answers p1 -> passes_checks p = true ->
            sum_weights (weights_of (assessment_key p)) (answers p) 0 = Ok sc)
    as Hsum.
  { intros p Hp _. rewrite Hp.
    replace (weights_of (assessment_key p)) with [0; 1; 2; 3]
      by (unfold weights_of; by case_match).
    by rewrite sum_weights_in_range. }
  assert (scored p2 sc = scored p1 sc) as Hsc.
  { unfold scored. by rewrite Hk, Ha, He. }
  exists (scored p1 sc).
  rewrite (run_submit_scored db p1 s sc Hp1 (Hsum p1 eq_refl Hp1)).
  rewrite (run_submit_scored db p2 s sc Hp2 (Hsum p2 (eq_sym Ha) Hp2)).
  rewrite Hsc. done.
Qed.

Lemma submit_ignores_client_score_witness :
  exists r : AssessmentResponse,
    outcome (run (canned_store [])
               (submit_assessment
                  {| assessment_key := "phq9";
                     answers := [3; 3; 3; 3; 3; 3; 3; 3; 3];
                     score := Some 0; severity := Some "Minimal";
                     student_email := None |}) 0%nat) = Ok r
    /\ outcome (run (canned_store [])
                  (submit_assessment
                     {| assessment_key := "phq9";
                        answers := [3; 3; 3; 3; 3; 3; 3; 3; 3];
                        score := Some 99; severity := Some "Fine";
                        student_email := None |}) 0%nat) = Ok r
    /\ run (canned_store [])
         (submit_assessment
            {| assessment_key := "phq9";
               answers := [3; 3; 3; 3; 3; 3; 3; 3; 3];
               score := Some 0; severity := Some "Minimal";
               student_email := None |}) 0%nat
       = run (canned_store [])
           (submit_assessment
              {| assessment_key := "phq9";
                 answers := [3; 3; 3; 3; 3; 3; 3; 3; 3];
                 score := Some 99; severity := Some "Fine";
                 student_email := None |}) 0%nat
    /\ score r = Some 27
    /\ severity r = Some "Severe".
Proof.
  exact (submit_ignores_client_score (canned_store []) 0%nat
           {| assessment_key := "phq9";
              answers := [3; 3; 3; 3; 3; 3; 3; 3; 3];
              score := Some 0; severity := Some "Minimal";
              student_email := None |}
           {| assessment_key := "phq9";
              answers := [3; 3; 3; 3; 3; 3; 3; 3; 3];
              score := Some 99; severity := Some "Fine";
              student_email := None |}
           eq_refl eq_refl eq_refl eq_refl).
Defined.

(** ** Best-effort writes *)

(** C9. A contact message is answered with exactly [{ok: true}] and a mood
    entry with the entry itself, unchanged, whether [create_document]
    succeeds or raises: the one write is attempted, its exception is
    swallowed, and the caller sees no error. *)
Theorem writes_always_acknowledged {St : Type} (db : Store St) (s : St)
    (msg : ContactMessage) (entry : MoodEntry) :
  run db (send_contact msg) s
  = (Ok {[ "ok" := VBool true ]},
     (store_create db "contactmessage" (MContactMessage msg) s).2,
     [CallCreate "contactmessage" (MContactMessage msg)])
  /\ run db (add_mood entry) s
     = (Ok entry,
        (store_create db "moodentry" (MMoodEntry entry) s).2,
        [CallCreate "moodentry" (MMoodEntry entry)]).
Proof.
  split.
  - unfold send_contact. simpl.
    by destruct (store_create db _ _ s) as [[[] | e] s1].
  - unfold add_mood. simpl.
    by destruct (store_create db _ _ s) as [[[] | e] s1].
Qed.

Example contact_when_store_raises :
  outcome (run unset_store
             (send_contact {| c_name := "Ada"; email := "ada@example.org";
                              subject := "Hello"; message := "Hi" |}) tt)
  = Ok {[ "ok" := VBool true ]}
  /\ outcome (run unset_store
                (add_mood {| mood := low; note := Some "tired";
                             m_student_email := None; timestamp := None |})
                tt)
     = Ok {| mood := low; note := Some "tired";
             m_student_email := None; timestamp := None |}.
Proof. split; reflexivity. Qed.

(** ** Listings with a default seed *)

Lemma map_resources_all (docs : list Doc) (rs acc : list Resource) :
  Forall2 (fun d r => Resource_of_doc d = Ok r) docs rs ->
  map_resources docs acc = Ok (acc ++ rs).
Proof.
  intros H. revert acc.
  induction H as [| d r docs rs Hd _ IH]; intros acc; simpl.
  - by rewrite app_nil_r.
  - rewrite Hd. simpl. rewrite IH. by rewrite <- app_assoc.
Qed.

Lemma map_resources_fails (docs : list Doc) (acc : list Resource) :
  Exists (fun d => exists e, Resource_of_doc d = Err e) docs ->
  exists e, map_resources docs acc = Err e.
Proof.
  intros H. revert acc.
  induction H as [d docs [e Hd] | d docs _ IH]; intros acc; simpl.
  - rewrite Hd. by exists e.
  - destruct (Resource_of_doc d) as [r | e]; simpl; [apply IH | by exists e].
Qed.

Lemma map_team_all (docs : list Doc) (ms acc : list TeamMember) :
  Forall2 (fun d m => TeamMember_of_doc d = Ok m) docs ms ->
  map_team docs acc = Ok (acc ++ ms).
Proof.
  intros H. revert acc.
  induction H as [| d m docs ms Hd _ IH]; intros acc; simpl.
  - by rewrite app_nil_r.
  - rewrite Hd. simpl. rewrite IH. by rewrite <- app_assoc.
Qed.

Lemma map_team_fails (docs : list Doc) (acc : list TeamMember) :
  Exists (fun d => exists e, TeamMember_of_doc d = Err e) docs ->
  exists e, map_team docs acc = Err e.
Proof.
  intros H. revert acc.
  induction H as [d docs [e Hd] | d docs _ IH]; intros acc; simpl.
  - rewrite Hd. by exists e.
  - destruct (TeamMember_of_doc d) as [r | e]; simpl;
      [apply IH | by exists e].
Qed.

(** With no record mappable, the mapping is empty or raises at once. *)
Lemma none_mappable_cases {A : Type} (f : Doc -> Res A) (docs : list Doc) :
  Forall (fun d => exists e, f d = Err e) docs ->
  docs = [] \/ Exists (fun d => exists e, f d = Err e) docs.
Proof.
  destruct 1 as [| d docs Hd _]; [by left | right; by left].
Qed.

Section Listings.
Context {St : Type} (db : Store St).

(** What [get_resources] answers, by what the read gave. *)
Lemma run_get_resources (s s1 : St) (r : Res (list Doc)) :
  store_get db "resource" s = (r, s1) ->
  run db get_resources s
  = (Ok match r with
        | Ok docs =>
            match map_resources docs [] with
            | Ok (m :: ms) => m :: ms
            | _ => DEFAULT_RESOURCES
            end
        | Err _ => DEFAULT_RESOURCES
        end, s1, [CallGet "resource"]).
Proof.
  intros Hr. unfold get_resources. simpl. rewrite Hr.
  destruct r as [docs | e]; simpl; [| done].
  by destruct (map_resources docs []) as [[| m ms] | e].
Qed.

Lemma run_get_team (s s1 : St) (r : Res (list Doc)) :
  store_get db "teammember" s = (r, s1) ->
  run db get_team s
  = (Ok match r with
        | Ok docs =>
            match map_team docs [] with
            | Ok (m :: ms) => m :: ms
            | _ => DEFAULT_TEAM
            end
        | Err _ => DEFAULT_TEAM
        end, s1, [CallGet "teammember"]).
Proof.
  intros Hr. unfold get_team. simpl. rewrite Hr.
  destruct r as [docs | e]; simpl; [| done].
  by destruct (map_team docs []) as [[| m ms] | e].
Qed.
End Listings.

Lemma validate_str_err (v : PyVal) (e : Exn) :
  validate_str v = Err e -> e = ValidationError.
Proof. destruct v; simpl; congruence. Qed.

Lemma category_outside_literals (c : string) :
  c ∉ ["article"; "video"; "guide"; "helpline"; "tool"] ->
  category_of_string c = None.
Proof.
  rewrite !not_elem_of_cons. intros (H1 & H2 & H3 & H4 & H5 & _).
  unfold category_of_string.
  apply String.eqb_neq in H1, H2, H3, H4, H5.
  by rewrite H1, H2, H3, H4, H5.
Qed.

Lemma Resource_bad_category (d : Doc) (c : string) :
  d !! "category" = Some (VStr c) ->
  c ∉ ["article"; "video"; "guide"; "helpline"; "tool"] ->
  Resource_of_doc d = Err ValidationError.
Proof.
  intros Hd Hc. unfold Resource_of_doc, Resource_init, doc_get.
  rewrite Hd. simpl. rewrite (category_outside_literals c Hc).
  repeat match goal with
         | |- context [validate_str ?v] =>
             let H := fresh "Hv" in
             destruct (validate_str v) as [? | ?] eqn:H; simpl;
             [| by rewrite (validate_str_err _ _ H)]
         end.
  done.
Qed.

(** C7, as stated, fails: a store that yields one record mapping to a
    [Resource] and one whose category is no allowed literal has yielded a
    mapped record, yet the answer is the default seed and the mapped record
    is not in it. The same happens for the team with a record whose name is
    no string. *)
Lemma listing_mixed_batch_gives_defaults :
  store_get (canned_store [doc_burnout; doc_podcast]) "resource" 0%nat
  = (Ok [doc_burnout; doc_podcast], 0%nat)
  /\ Resource_of_doc doc_burnout
     = Ok burnout_resource
  /\ run (canned_store [doc_burnout; doc_podcast]) get_resources 0%nat
     = (Ok DEFAULT_RESOURCES, 0%nat, [CallGet "resource"])
  /\ (burnout_resource ∉ DEFAULT_RESOURCES)
  /\ TeamMember_of_doc doc_member
     = Ok member_ava
  /\ run (canned_store [doc_member; doc_nameless]) get_team 0%nat
     = (Ok DEFAULT_TEAM, 0%nat, [CallGet "teammember"])
  /\ (member_ava ∉ DEFAULT_TEAM).
Proof.
  split; [reflexivity |].
  split; [reflexivity |].
  split; [reflexivity |].
  split.
  { unfold DEFAULT_RESOURCES, burnout_resource. rewrite !not_elem_of_cons.
    repeat split; try discriminate. apply not_elem_of_nil. }
  split; [reflexivity |].
  split; [reflexivity |].
  unfold DEFAULT_TEAM, member_ava. rewrite !not_elem_of_cons.
  repeat split; try discriminate. apply not_elem_of_nil.
Qed.

(** C7, amended. For the resources and for the team: when the store read
    raises (as it does when the store is unset), or no yielded record maps
    (none was yielded, or each fails construction), the answer is the
    default seed, four records with the fixed field values below; when the
    read yields at least one record and every yielded record maps, the
    answer is the list of mapped records, in order. *)
Theorem listing_defaults_or_mapped {St : Type} (db : Store St)
    (s s1 s2 : St) (r1 r2 : Res (list Doc)) :
  store_get db "resource" s = (r1, s1) ->
  store_get db "teammember" s = (r2, s2) ->
  ((forall e, r1 = Err e ->
      run db get_resources s = (Ok DEFAULT_RESOURCES, s1, [CallGet "resource"]))
   /\ (forall docs, r1 = Ok docs ->
         Forall (fun d => exists e, Resource_of_doc d = Err e) docs ->
         run db get_resources s
         = (Ok DEFAULT_RESOURCES, s1, [CallGet "resource"]))
   /\ (forall docs mapped, r1 = Ok docs -> docs <> [] ->
         Forall2 (fun d m => Resource_of_doc d = Ok m) docs mapped ->
         run db get_resources s = (Ok mapped, s1, [CallGet "resource"])))
  /\ ((forall e, r2 = Err e ->
         run db get_team s = (Ok DEFAULT_TEAM, s2, [CallGet "teammember"]))
      /\ (forall docs, r2 = Ok docs ->
            Forall (fun d => exists e, TeamMember_of_doc d = Err e) docs ->
            run db get_team s = (Ok DEFAULT_TEAM, s2, [CallGet "teammember"]))
      /\ (forall docs mapped, r2 = Ok docs -> docs <> [] ->
            Forall2 (fun d m => TeamMember_of_doc d = Ok m) docs mapped ->
            run db get_team s = (Ok mapped, s2, [CallGet "teammember"])))
  /\ (fun r => (title r, description r, url r, category r))
       <$> DEFAULT_RESOURCES
     = [ ("Coping with Exam Stress (IT)",
          "Practical steps for managing deadlines and exams.",
          "https://www.mind.org.uk/", guide);
         ("Understanding Burnout",
          "Signs and strategies for students in tech.",
          "https://www.helpguide.org/", article);
         ("Breathing Exercise", "4-7-8 guided breathing timer.",
          "https://www.boxbreathingapp.com/", tool);
         ("24/7 Helpline", "Immediate assistance if you’re in crisis.",
          "https://988lifeline.org/", helpline) ]
  /\ (fun m => (name m, role m, bio m, avatar m)) <$> DEFAULT_TEAM
     = [ ("Ava Patel", "Clinical Advisor",
          Some "Guides assessment criteria", None);
         ("Liam Chen", "Data Analyst",
          Some "Turns mood logs into insight", None);
         ("Sara Gomez", "Frontend", Some "Designs interactive tools", None);
         ("Noah Singh", "Backend", Some "APIs and data layer", None) ].
Proof.
  intros H1 H2.
  rewrite (run_get_resources db s s1 r1 H1), (run_get_team db s s2 r2 H2).
  split; [| split; [| split; reflexivity]].
  - split; [by intros e -> | split].
    + intros docs -> Hno.
      destruct (none_mappable_cases _ _ Hno) as [-> | Hex]; [done |].
      by destruct (map_resources_fails docs [] Hex) as [e ->].
    + intros docs mapped -> Hne Hall.
      rewrite (map_resources_all docs mapped [] Hall). simpl.
      destruct Hall; [done | done].
  - split; [by intros e -> | split].
    + intros docs -> Hno.
      destruct (none_mappable_cases _ _ Hno) as [-> | Hex]; [done |].
      by destruct (map_team_fails docs [] Hex) as [e ->].
    + intros docs mapped -> Hne Hall.
      rewrite (map_team_all docs mapped [] Hall). simpl.
      destruct Hall; [done | done].
Qed.

Lemma listing_defaults_or_mapped_witness :
  store_get (canned_store [doc_burnout]) "resource" 0%nat
  = (Ok [doc_burnout], 0%nat)
  /\ store_get unset_store "teammember" tt
     = (Err (StoreError "Database not available"), tt)
  /\ run (canned_store [doc_burnout]) get_resources 0%nat
     = (Ok [burnout_resource], 0%nat, [CallGet "resource"])
  /\ run unset_store get_team tt
     = (Ok DEFAULT_TEAM, tt, [CallGet "teammember"]).
Proof.
  split; [reflexivity |].
  split; [reflexivity |].
  split.
  - destruct (listing_defaults_or_mapped (canned_store [doc_burnout])
                0%nat 0%nat 0%nat (Ok [doc_burnout]) (Ok [doc_burnout])
                eq_refl eq_refl) as [(_ & _ & Hmapped) _].
    apply (Hmapped [doc_burnout] [burnout_resource] eq_refl).
    + discriminate.
    + repeat constructor.
  - destruct (listing_defaults_or_mapped unset_store tt tt tt
                (Err (StoreError "Database not available"))
                (Err (StoreError "Database not available"))
                eq_refl eq_refl) as (_ & (Hraise & _) & _).
    apply (Hraise (StoreError "Database not available") eq_refl).
Defined.

(** C10. When the read of the resources succeeds and any one yielded
    record fails [Resource] construction, as a record does whose category
    is a string outside article, video, guide, helpline and tool, the
    exception ends the mapping inside the handler's catch-all and the answer
    is the four defaults: the records of the batch that do map are dropped
    with it. *)
Theorem resources_bad_record_drops_batch {St : Type} (db : Store St)
    (s s1 : St) (docs : list Doc) :
  store_get db "resource" s = (Ok docs, s1) ->
  Exists (fun d => exists e, Resource_of_doc d = Err e) docs ->
  run db get_resources s = (Ok DEFAULT_RESOURCES, s1, [CallGet "resource"])
  /\ length DEFAULT_RESOURCES = 4%nat
  /\ forall (d : Doc) (c : string),
       d !! "category" = Some (VStr c) ->
       c ∉ ["article"; "video"; "guide"; "helpline"; "tool"] ->
       Resource_of_doc d = Err ValidationError.
Proof.
  intros Hr Hex. split; [| split; [reflexivity |]].
  - rewrite (run_get_resources db s s1 _ Hr).
    by destruct (map_resources_fails docs [] Hex) as [e ->].
  - apply Resource_bad_category.
Qed.

Lemma resources_bad_record_drops_batch_witness :
  Resource_of_doc doc_burnout = Ok burnout_resource
  /\ Resource_of_doc doc_podcast = Err ValidationError
  /\ run (canned_store [doc_burnout; doc_podcast; doc_burnout])
       get_resources 0%nat
     = (Ok DEFAULT_RESOURCES, 0%nat, [CallGet "resource"]).
Proof.
  split; [reflexivity |].
  split; [reflexivity |].
  apply (resources_bad_record_drops_batch
           (canned_store [doc_burnout; doc_podcast; doc_burnout])
           0%nat 0%nat [doc_burnout; doc_podcast; doc_burnout] eq_refl).
  apply Exists_cons_tl, Exists_cons_hd.
  exists ValidationError. reflexivity.
Defined.

(** ** Mood statistics *)

Lemma doc_get_mood (d : Doc) : doc_get d "mood" (VStr "unknown") = mood_of d.
Proof. unfold doc_get, mood_of. by destruct (d !! "mood"). Qed.

Ltac key_cases :=
  repeat match goal with
         | b : bool |- _ => destruct b
         | H : (_ =? _) = true |- _ => apply Z.eqb_eq in H
         | H : String.eqb _ _ = true |- _ => apply String.eqb_eq in H
         | |- (_ =? _) = true => apply Z.eqb_eq
         | |- String.eqb _ _ = true => apply String.eqb_eq
         end;
  simpl in *; first [congruence | lia].

Lemma key_eqb_sym (a b : PyVal) : key_eqb a b = true -> key_eqb b a = true.
Proof. destruct a, b; simpl; intros H; try done; key_cases. Qed.

Lemma key_eqb_trans (a b c : PyVal) :
  key_eqb a b = true -> key_eqb b c = true -> key_eqb a c = true.
Proof.
  destruct a, b, c; simpl; intros H1 H2; try done; key_cases.
Qed.

Lemma key_eqb_congr (a b c : PyVal) :
  key_eqb a b = true -> key_eqb a c = key_eqb b c.
Proof.
  intros Hab.
  destruct (key_eqb a c) eqn:Hac, (key_eqb b c) eqn:Hbc; try done.
  - apply key_eqb_sym in Hab.
    by rewrite (key_eqb_trans _ _ _ Hab Hac) in Hbc.
  - by rewrite (key_eqb_trans _ _ _ Hab Hbc) in Hac.
Qed.

Lemma dict_find_update (d : PyDict) (k m : PyVal) (v : Z) :
  dict_find (dict_update d k v) m
  = if key_eqb k m then Some v else dict_find d m.
Proof.
  induction d as [| [k' v'] rest IH]; simpl; [done |].
  destruct (key_eqb k' k) eqn:Hk; simpl.
  - rewrite (key_eqb_congr _ _ m Hk). by destruct (key_eqb k m).
  - rewrite IH.
    destruct (key_eqb k' m) eqn:Hm, (key_eqb k m) eqn:Hkm; try done.
    apply key_eqb_sym in Hkm.
    by rewrite (key_eqb_trans _ _ _ Hm Hkm) in Hk.
Qed.

Lemma occurrences_nonneg (m : PyVal) (docs : list Doc) :
  0 <= occurrences m docs.
Proof. induction docs as [| d docs IH]; simpl; [done | case_match; lia]. Qed.

Lemma occurrences_app (m : PyVal) (l1 l2 : list Doc) :
  occurrences m (l1 ++ l2) = occurrences m l1 + occurrences m l2.
Proof. induction l1 as [| d l1 IH]; simpl; [done | rewrite IH; lia]. Qed.

Lemma occurrences_congr (a b : PyVal) (docs : list Doc) :
  key_eqb a b = true -> occurrences a docs = occurrences b docs.
Proof.
  intros Hab. induction docs as [| d docs IH]; simpl; [done |].
  rewrite IH. f_equal.
  destruct (key_eqb (mood_of d) a) eqn:Ha, (key_eqb (mood_of d) b) eqn:Hb;
    try done.
  - by rewrite (key_eqb_trans _ _ _ Ha Hab) in Hb.
  - apply key_eqb_sym in Hab.
    by rewrite (key_eqb_trans _ _ _ Hb Hab) in Ha.
Qed.

Lemma tally_counts (docs seen : list Doc) (c : PyDict) :
  Forall (fun d => py_hashable (mood_of d) = true) docs ->
  counts_of c seen ->
  exists c', tally docs c = Ok c' /\ counts_of c' (seen ++ docs).
Proof.
  intros H. revert seen c.
  induction H as [| d docs Hd _ IH]; intros seen c Hc; simpl.
  - exists c. by rewrite app_nil_r.
  - rewrite doc_get_mood. unfold dict_get, dict_setitem. rewrite Hd. simpl.
    destruct (IH (seen ++ [d])
                (dict_update c (mood_of d)
                   (default 0 (dict_find c (mood_of d)) + 1)))
      as (c' & Hc' & Hinv).
    + intros m. rewrite dict_find_update, occurrences_app. simpl.
      pose proof (occurrences_nonneg m seen) as Hge.
      destruct (key_eqb (mood_of d) m) eqn:Hm.
      * rewrite (Hc (mood_of d)), (occurrences_congr _ _ seen Hm).
        destruct (Z.eqb_spec (occurrences m seen) 0) as [-> | Hz]; simpl.
        -- done.
        -- destruct (Z.eqb_spec (occurrences m seen + (1 + 0)) 0);
             [lia | f_equal; lia].
      * rewrite (Hc m). replace (occurrences m seen + (0 + 0))
          with (occurrences m seen) by lia. done.
    + exists c'. by rewrite <- app_assoc in Hinv.
Qed.

Lemma tally_unhashable (docs : list Doc) (c : PyDict) :
  Exists (fun d => py_hashable (mood_of d) = false) docs ->
  tally docs c = Err TypeError.
Proof.
  intros H. revert c.
  induction H as [d docs Hd | d docs _ IH]; intros c; simpl;
    rewrite doc_get_mood; unfold dict_get, dict_setitem.
  - by rewrite Hd.
  - destruct (py_hashable (mood_of d)); simpl; [apply IH | done].
Qed.

(** C8, as stated, fails: the read succeeds and returns two records, the
    second with a list as its mood; hashing that key raises [TypeError]
    inside the handler's own [try], so the answer is the zeroed result and
    its total is not the number of returned records. *)
Lemma mood_stats_unhashable_gives_zeros :
  store_get (canned_store mood_docs_unhashable) "moodentry" 0%nat
  = (Ok mood_docs_unhashable, 0%nat)
  /\ len mood_docs_unhashable = 2
  /\ run (canned_store mood_docs_unhashable) mood_stats 0%nat
     = (Ok {| total := 0; counts := [] |}, 0%nat, [CallGet "moodentry"]).
Proof. repeat split. Qed.

(** C8, amended. If the store read raises, the answer is exactly
    [{total: 0, counts: {}}]. If it succeeds and every mood value met is
    hashable, total is the number of returned records and counts holds, for
    each mood value, how often it occurs, a record without a mood field
    counting under "unknown"; values that occur nowhere have no entry. If
    it succeeds and some mood value is unhashable, the tally raises inside
    the same handler and the answer is the zeroed result again. *)
Theorem mood_stats_tally {St : Type} (db : Store St) (s s1 : St)
    (r : Res (list Doc)) :
  store_get db "moodentry" s = (r, s1) ->
  (forall e, r = Err e ->
     run db mood_stats s
     = (Ok {| total := 0; counts := [] |}, s1, [CallGet "moodentry"]))
  /\ (forall docs, r = Ok docs ->
        Forall (fun d => py_hashable (mood_of d) = true) docs ->
        exists c : PyDict,
          run db mood_stats s
          = (Ok {| total := len docs; counts := c |}, s1,
             [CallGet "moodentry"])
          /\ forall m : PyVal,
               dict_find c m
               = if occurrences m docs =? 0 then None
                 else Some (occurrences m docs))
  /\ (forall docs, r = Ok docs ->
        Exists (fun d => py_hashable (mood_of d) = false) docs ->
        run db mood_stats s
        = (Ok {| total := 0; counts := [] |}, s1, [CallGet "moodentry"])).
Proof.
  intros Hr. unfold mood_stats. simpl. rewrite Hr.
  split; [by intros e -> | split].
  - intros docs -> Hh. simpl.
    destruct (tally_counts docs [] [] Hh) as (c & Hc & Hinv); [done |].
    exists c. rewrite Hc. by split.
  - intros docs -> Hex. simpl.
    by rewrite (tally_unhashable docs [] Hex).
Qed.

Lemma mood_stats_tally_witness :
  store_get (canned_store mood_docs) "moodentry" 0%nat = (Ok mood_docs, 0%nat)
  /\ exists c : PyDict,
       run (canned_store mood_docs) mood_stats 0%nat
       = (Ok {| total := 4; counts := c |}, 0%nat, [CallGet "moodentry"])
       /\ dict_find c (VStr "good") = Some 2
       /\ dict_find c (VStr "unknown") = Some 1
       /\ dict_find c (VStr "down") = None.
Proof.
  split; [reflexivity |].
  destruct (mood_stats_tally (canned_store mood_docs) 0%nat 0%nat
              (Ok mood_docs) eq_refl) as (_ & Hok & _).
  destruct (Hok mood_docs eq_refl) as (c & Hrun & Hc).
  - repeat constructor.
  - exists c. split; [exact Hrun |].
    split; [exact (Hc (VStr "good")) |].
    split; [exact (Hc (VStr "unknown")) | exact (Hc (VStr "down"))].
Defined.

(** ** Submissions: the four ways a request ends *)

Lemma py_getitem_weights_wrap (a : Z) :
  -4 <= a <= 3 -> py_getitem [0; 1; 2; 3] a = Ok (a mod 4).
Proof.
  intros H.
  assert (a = -4 \/ a = -3 \/ a = -2 \/ a = -1
          \/ a = 0 \/ a = 1 \/ a = 2 \/ a = 3)
    as [-> | [-> | [-> | [-> | [-> | [-> | [-> | ->]]]]]]] by lia;
    reflexivity.
Qed.

Lemma sum_weights_wrap (l : list Z) (acc : Z) :
  Forall (fun a => -4 <= a <= 3) l ->
  sum_weights [0; 1; 2; 3] l acc
  = Ok (acc + sum_answers ((fun a => a mod 4) <$> l)).
Proof.
  intros H. revert acc.
  induction H as [| a l Ha _ IH]; intros acc; cbn -[Z.modulo py_getitem].
  - f_equal. lia.
  - rewrite py_getitem_weights_wrap by done. cbn -[Z.modulo].
    rewrite IH. f_equal. unfold sum_answers. lia.
Qed.

Lemma in_table_spec (l : list Z) :
  forallb in_table l = true <-> Forall (fun a => -4 <= a <= 3) l.
Proof.
  rewrite forallb_forall, Forall_forall. unfold in_table.
  split; intros H a Ha.
  - apply list_elem_of_In, H, andb_true_iff in Ha as [H1 H2].
    apply Z.leb_le in H1, H2. lia.
  - apply list_elem_of_In, H in Ha.
    apply andb_true_iff. split; apply Z.leb_le; lia.
Qed.

Lemma not_in_table_spec (l : list Z) :
  forallb in_table l = false -> Exists (fun a => a < -4 \/ 3 < a) l.
Proof.
  induction l as [| a l IH]; simpl; [done |].
  intros H. apply andb_false_iff in H as [H | H].
  - left. unfold in_table in H.
    apply andb_false_iff in H as [H | H]; apply Z.leb_gt in H; lia.
  - right. by apply IH.
Qed.

Lemma known_key_spec (k : string) :
  known_key k = true <-> ASSESSMENTS !! k <> None.
Proof.
  unfold known_key.
  rewrite orb_true_iff, !String.eqb_eq, ASSESSMENTS_lookup.
  destruct (decide (k = "phq9")), (decide (k = "gad7")); tauto.
Qed.

Lemma passes_checks_known (p : AssessmentResponse) :
  passes_checks p
  = known_key (assessment_key p)
    && (len (answers p) =? required_len (assessment_key p)).
Proof.
  unfold passes_checks, known_key, required_len.
  destruct (String.eqb (assessment_key p) "phq9") eqn:H9; simpl.
  - apply String.eqb_eq in H9 as ->. simpl. by rewrite orb_false_r.
  - by destruct (String.eqb (assessment_key p) "gad7").
Qed.

Section SubmitCases.
Context {St : Type} (db : Store St).

(** Every run of the handler takes one of four ways out. *)
Lemma run_submit_cases (p : AssessmentResponse) (s : St) :
  run db (submit_assessment p) s
  = if negb (known_key (assessment_key p))
    then (Err (HTTPException 400 "Unknown assessment key"), s, [])
    else if negb (len (answers p) =? required_len (assessment_key p))
    then (Err (HTTPException 400
                 ("Expected " +:+ pretty (required_len (assessment_key p))
                  +:+ " answers")), s, [])
    else if negb (forallb in_table (answers p))
    then (Err IndexError, s, [])
    else
      let r := scored p (sum_answers ((fun a => a mod 4) <$> answers p)) in
      (Ok r,
       (store_create db "assessmentresponse" (MAssessmentResponse r) s).2,
       [CallCreate "assessmentresponse" (MAssessmentResponse r)]).
Proof.
  destruct (known_key (assessment_key p)) eqn:Hk; simpl.
  - destruct (len (answers p) =? required_len (assessment_key p)) eqn:Hl;
      simpl.
    + assert (passes_checks p = true) as Hp
        by by rewrite passes_checks_known, Hk, Hl.
      assert (weights_of (assessment_key p) = [0; 1; 2; 3]) as Hw
        by (unfold weights_of; by case_match).
      destruct (forallb in_table (answers p)) eqn:Ht; simpl.
      * apply run_submit_scored; [done |]. rewrite Hw.
        apply in_table_spec in Ht. by rewrite sum_weights_wrap.
      * apply run_submit_raises; [done |]. rewrite Hw.
        by apply sum_weights_out_of_range, not_in_table_spec.
    + apply known_key_spec in Hk. unfold submit_assessment.
      rewrite decide_False by done. fold (required_len (assessment_key p)).
      by rewrite Hl.
  - unfold submit_assessment. rewrite decide_True; [done |].
    apply dec_stable. intros Hn. apply known_key_spec in Hn. congruence.
Qed.
End SubmitCases.

(** X1. A submission that passes the key and count checks and whose answers
    all lie in -4..3 is scored: a negative answer is read from the end of
    the weight table, so each answer counts as its residue modulo 4. *)
Theorem submit_scores_residues {St : Type} (db : Store St) (s : St)
    (p : AssessmentResponse) :
  passes_checks p = true ->
  Forall (fun a => -4 <= a <= 3) (answers p) ->
  exists r : AssessmentResponse,
    outcome (run db (submit_assessment p) s) = Ok r
    /\ score r = Some (sum_answers ((fun a => a mod 4) <$> answers p)).
Proof.
  intros Hp Ht. rewrite run_submit_cases.
  rewrite passes_checks_known in Hp. apply andb_true_iff in Hp as [-> ->].
  apply in_table_spec in Ht as ->. simpl. by eexists.
Qed.

Lemma submit_scores_residues_witness :
  exists r : AssessmentResponse,
    outcome (run unset_store
               (submit_assessment (submission "gad7" [-1; -2; -3; -4; 0; 1; 2]))
               tt) = Ok r
    /\ score r = Some 9.
Proof.
  apply (submit_scores_residues unset_store tt
           (submission "gad7" [-1; -2; -3; -4; 0; 1; 2]) eq_refl).
  repeat constructor; lia.
Defined.

(** X2. The handler returns a record exactly when the key is one of the two
    known ones, the number of answers is the one the key asks for, and every
    answer lies in -4..3; in every other case it raises. *)
Theorem submit_returns_iff {St : Type} (db : Store St) (s : St)
    (p : AssessmentResponse) :
  (exists r, outcome (run db (submit_assessment p) s) = Ok r)
  <-> known_key (assessment_key p) = true
      /\ len (answers p) = required_len (assessment_key p)
      /\ Forall (fun a => -4 <= a <= 3) (answers p).
Proof.
  rewrite run_submit_cases, <- in_table_spec, <- Z.eqb_eq.
  destruct (known_key (assessment_key p)); simpl;
    [| split; [by intros [r Hr] | by intros [? _]]].
  destruct (len (answers p) =? required_len (assessment_key p)); simpl;
    [| split; [by intros [r Hr] | by intros (_ & ? & _)]].
  destruct (forallb in_table (answers p)); simpl.
  - split; [done | intros _; by eexists].
  - split; [by intros [r Hr] | by intros (_ & _ & ?)].
Qed.

(** X3. Whatever record the handler returns, its score lies between 0 and
    three times the number of questions (27 for phq9, 21 for gad7), and its
    severity is the label the band table gives that score: "Unknown" is
    returned for no request at all. *)
Theorem submit_score_within_scale {St : Type} (db : Store St) (s : St)
    (p r : AssessmentResponse) :
  outcome (run db (submit_assessment p) s) = Ok r ->
  exists (sc : Z) (label : string),
    score r = Some sc
    /\ 0 <= sc <= 3 * required_len (assessment_key p)
    /\ severity r = Some label
    /\ band_of (assessment_key p) sc = Some label
    /\ label <> "Unknown".
Proof.
  rewrite run_submit_cases.
  destruct (known_key (assessment_key p)) eqn:Hk; simpl; [| done].
  destruct (len (answers p) =? required_len (assessment_key p)) eqn:Hl;
    simpl; [| done].
  destruct (forallb in_table (answers p)) eqn:Ht; simpl; [| done].
  intros [= <-]. apply Z.eqb_eq in Hl.
  set (sc := sum_answers ((fun a => a mod 4) <$> answers p)).
  assert (0 <= sc <= 3 * len (answers p)) as Hb.
  { subst sc. unfold len. rewrite <- (length_fmap (fun a => a mod 4)).
    apply sum_answers_bounds, Forall_fmap, Forall_true.
    intros a. simpl. pose proof (Z.mod_pos_bound a 4). lia. }
  rewrite Hl in Hb.
  assert (band_of (assessment_key p) sc
          = Some (severity_from_score sc (bands_of (assessment_key p))))
    as Hband.
  { unfold band_of, bands_of, required_len in *.
    destruct (String.eqb (assessment_key p) "phq9").
    - apply severity_phq9. lia.
    - apply severity_gad7. lia. }
  exists sc, (severity_from_score sc (bands_of (assessment_key p))).
  repeat split; try done; try lia.
  by eapply band_label_known.
Qed.

Lemma submit_score_within_scale_witness :
  exists (sc : Z) (label : string),
    score (scored phq9_negative 3) = Some sc
    /\ 0 <= sc <= 3 * required_len "phq9"
    /\ severity (scored phq9_negative 3) = Some label
    /\ band_of "phq9" sc = Some label
    /\ label <> "Unknown".
Proof.
  exact (submit_score_within_scale (canned_store []) 0%nat phq9_negative
           (scored phq9_negative 3) eq_refl).
Defined.

(** X4. What the handler stores is what it returns. A run that returns a
    record has made one store call, the write of that very record to
    "assessmentresponse", and the record carries the key, the answers and
    the email of the request; a run that raises has made no store call and
    left the store as it was, and the exception is one of the two 400s or
    [IndexError]. *)
Theorem submit_persists_what_it_returns {St : Type} (db : Store St) (s : St)
    (p : AssessmentResponse) :
  (forall r, outcome (run db (submit_assessment p) s) = Ok r ->
     (run db (submit_assessment p) s).2
     = [CallCreate "assessmentresponse" (MAssessmentResponse r)]
     /\ assessment_key r = assessment_key p
     /\ answers r = answers p
     /\ student_email r = student_email p)
  /\ (forall e, outcome (run db (submit_assessment p) s) = Err e ->
        (run db (submit_assessment p) s).2 = []
        /\ (run db (submit_assessment p) s).1.2 = s
        /\ (e = IndexError \/ exists detail, e = HTTPException 400 detail)).
Proof.
  rewrite run_submit_cases.
  destruct (known_key (assessment_key p)); simpl;
    [| split; [done | intros e [= <-]; eauto]].
  destruct (len (answers p) =? required_len (assessment_key p)); simpl;
    [| split; [done | intros e [= <-]; eauto]].
  destruct (forallb in_table (answers p)); simpl.
  - split; [by intros r [= <-] | done].
  - split; [done | intros e [= <-]; eauto].
Qed.


(** ** Order of the answers *)

Lemma sum_answers_perm (l1 l2 : list Z) :
  l1 ≡ₚ l2 -> sum_answers l1 = sum_answers l2.
Proof. unfold sum_answers. induction 1; simpl; lia. Qed.

Lemma forallb_in_table_perm (l1 l2 : list Z) :
  l1 ≡ₚ l2 -> forallb in_table l1 = forallb in_table l2.
Proof.
  intros H.
  destruct (forallb in_table l1) eqn:H1, (forallb in_table l2) eqn:H2;
    try done.
  - apply in_table_spec in H1. rewrite H in H1.
    apply in_table_spec in H1. congruence.
  - apply in_table_spec in H2. rewrite <- H in H2.
    apply in_table_spec in H2. congruence.
Qed.

(** X6. The score does not depend on the order of the answers: two requests
    with the same key whose answers are rearrangements of each other get
    the same score and severity, or the same exception. *)
Theorem submit_order_irrelevant {St : Type} (db : Store St) (s : St)
    (p1 p2 : AssessmentResponse) :
  assessment_key p1 = assessment_key p2 ->
  answers p1 ≡ₚ answers p2 ->
  verdict (outcome (run db (submit_assessment p1) s))
  = verdict (outcome (run db (submit_assessment p2) s)).
Proof.
  intros Hk Ha. rewrite !run_submit_cases, <- Hk.
  unfold len. rewrite <- (Permutation_length Ha).
  rewrite <- (forallb_in_table_perm _ _ Ha).
  repeat case_match; simpl; try done.
  rewrite <- Hk.
  by rewrite (sum_answers_perm _ _ (fmap_Permutation (fun a => a mod 4) _ _ Ha)).
Qed.

Lemma submit_order_irrelevant_witness :
  verdict (outcome (run unset_store
                      (submit_assessment
                         (submission "gad7" [3; 0; 1; 0; 2; 0; 0])) tt))
  = verdict (outcome (run unset_store
                        (submit_assessment
                           (submission "gad7" [0; 3; 1; 0; 2; 0; 0])) tt)).
Proof.
  apply (submit_order_irrelevant unset_store tt
           (submission "gad7" [3; 0; 1; 0; 2; 0; 0])
           (submission "gad7" [0; 3; 1; 0; 2; 0; 0]) eq_refl).
  apply perm_swap.
Defined.

(** ** Band lookup on any table *)

(** X7. On any band table the lookup is first-match: the label returned is
    that of the first band whose bounds enclose the score, also when later
    bands enclose it too, and "Unknown" is returned when no band of the
    table encloses the score. *)
Theorem severity_first_match (sc : Z) (bands : list (Z * Z * string)) :
  match band_index sc bands with
  | Some i =>
      (exists lo hi,
         bands !! i = Some (lo, hi, severity_from_score sc bands)
         /\ lo <= sc <= hi)
      /\ forall (j : nat) lo hi label,
           (j < i)%nat -> bands !! j = Some (lo, hi, label) ->
           ~ (lo <= sc <= hi)
  | None =>
      severity_from_score sc bands = "Unknown"
      /\ forall lo hi label, (lo, hi, label) ∈ bands -> ~ (lo <= sc <= hi)
  end.
Proof.
  induction bands as [| [[lo hi] label] rest IH]; simpl.
  - split; [done |]. intros lo hi label Hin. by apply elem_of_nil in Hin.
  - destruct ((lo <=? sc) && (sc <=? hi)) eqn:Hb; simpl.
    + apply andb_true_iff in Hb as [H1 H2]. apply Z.leb_le in H1, H2.
      split; [by exists lo, hi | intros j ? ? ? Hj; lia].
    + assert (~ (lo <= sc <= hi)) as Hout.
      { intros [H1 H2]. apply Z.leb_le in H1, H2. by rewrite H1, H2 in Hb. }
      destruct (band_index sc rest) as [i |]; simpl.
      * destruct IH as [IH1 IH2]. split; [done |].
        intros [| j] lo' hi' label' Hj Hl; simpl in Hl.
        -- by injection Hl as <- <- <-.
        -- apply (IH2 j lo' hi' label'); [lia | done].
      * destruct IH as [IH1 IH2]. split; [done |].
        intros lo' hi' label' Hin.
        apply elem_of_cons in Hin as [[= -> -> ->] | Hin]; [done |].
        by apply (IH2 lo' hi' label').
Qed.

Lemma band_index_phq9 (sc : Z) :
  band_index sc PHQ9_SEVERITY
  = if decide (0 <= sc <= 4) then Some 0%nat
    else if decide (5 <= sc <= 9) then Some 1%nat
    else if decide (10 <= sc <= 14) then Some 2%nat
    else if decide (15 <= sc <= 19) then Some 3%nat
    else if decide (20 <= sc <= 27) then Some 4%nat
    else None.
Proof.
  simpl.
  repeat case_decide;
    repeat (match goal with
            | |- context [(?a <=? ?b)] =>
                destruct (Z.leb_spec a b); simpl
            end);
    first [reflexivity | lia].
Qed.

Lemma band_index_gad7 (sc : Z) :
  band_index sc GAD7_SEVERITY
  = if decide (0 <= sc <= 4) then Some 0%nat
    else if decide (5 <= sc <= 9) then Some 1%nat
    else if decide (10 <= sc <= 14) then Some 2%nat
    else if decide (15 <= sc <= 21) then Some 3%nat
    else None.
Proof.
  simpl.
  repeat case_decide;
    repeat (match goal with
            | |- context [(?a <=? ?b)] =>
                destruct (Z.leb_spec a b); simpl
            end);
    first [reflexivity | lia].
Qed.

(** X8. Both tables run from the mildest band to the most severe and the
    lookup follows them: of two scores on the scale (0..27 for PHQ-9, 0..21
    for GAD-7) the higher one never falls in an earlier band. *)
Theorem severity_monotone (s1 s2 : Z) :
  0 <= s1 ->
  s1 <= s2 ->
  (s2 <= 27 ->
   exists i j : nat,
     band_index s1 PHQ9_SEVERITY = Some i
     /\ band_index s2 PHQ9_SEVERITY = Some j /\ (i <= j)%nat)
  /\ (s2 <= 21 ->
      exists i j : nat,
        band_index s1 GAD7_SEVERITY = Some i
        /\ band_index s2 GAD7_SEVERITY = Some j /\ (i <= j)%nat).
Proof.
  intros H0 Hle. split.
  - intros H27. rewrite !band_index_phq9.
    repeat case_decide; try lia; eexists _, _; repeat split; lia.
  - intros H21. rewrite !band_index_gad7.
    repeat case_decide; try lia; eexists _, _; repeat split; lia.
Qed.

Lemma severity_monotone_witness :
  (exists i j : nat,
     band_index 9 PHQ9_SEVERITY = Some i
     /\ band_index 10 PHQ9_SEVERITY = Some j /\ (i <= j)%nat)
  /\ (exists i j : nat,
        band_index 9 GAD7_SEVERITY = Some i
        /\ band_index 10 GAD7_SEVERITY = Some j /\ (i <= j)%nat).
Proof.
  destruct (severity_monotone 9 10) as [H1 H2]; [lia | lia |].
  split; [apply H1 | apply H2]; lia.
Defined.

(** X9. The fallback label is given exactly off the scale: the PHQ-9 table
    answers "Unknown" if and only if the score is negative or above 27, the
    GAD-7 table if and only if it is negative or above 21. *)
Theorem severity_unknown_iff (sc : Z) :
  (severity_from_score sc PHQ9_SEVERITY = "Unknown" <-> sc < 0 \/ 27 < sc)
  /\ (severity_from_score sc GAD7_SEVERITY = "Unknown" <-> sc < 0 \/ 21 < sc).
Proof.
  split; simpl;
    repeat (match goal with
            | |- context [(?a <=? ?b)] =>
                destruct (Z.leb_spec a b); simpl
            end);
    (split; [intros Hu; first [discriminate Hu | lia]
            | intros Hu; first [reflexivity | lia]]).
Qed.

(** ** Reads: what every store gets back *)

(** X10. The three read handlers never raise and never write: against any
    store, whatever it answers, each returns a value after exactly one
    store call, the read of its own collection. *)
Theorem reads_never_raise {St : Type} (db : Store St) (s : St) :
  (exists rs, run db get_resources s
              = (Ok rs, (store_get db "resource" s).2, [CallGet "resource"]))
  /\ (exists ms, run db get_team s
                 = (Ok ms, (store_get db "teammember" s).2,
                    [CallGet "teammember"]))
  /\ (exists st, run db mood_stats s
                 = (Ok st, (store_get db "moodentry" s).2,
                    [CallGet "moodentry"])).
Proof.
  split; [| split].
  - destruct (store_get db "resource" s) as [r s1] eqn:Hr.
    rewrite (run_get_resources db s s1 r Hr). by eexists.
  - destruct (store_get db "teammember" s) as [r s1] eqn:Hr.
    rewrite (run_get_team db s s1 r Hr). by eexists.
  - unfold mood_stats. simpl.
    destruct (store_get db "moodentry" s) as [[docs | e] s1]; simpl;
      [| by eexists].
    destruct (tally docs []) as [c | e]; simpl; by eexists.
Qed.

Lemma map_resources_length (docs : list Doc) (acc rs : list Resource) :
  map_resources docs acc = Ok rs ->
  length rs = (length acc + length docs)%nat.
Proof.
  revert acc. induction docs as [| d docs IH]; intros acc; simpl.
  - intros [= <-]. lia.
  - destruct (Resource_of_doc d) as [r | e]; simpl; [| done].
    intros H. apply IH in H. rewrite length_app in H. simpl in H. lia.
Qed.

Lemma map_team_length (docs : list Doc) (acc ms : list TeamMember) :
  map_team docs acc = Ok ms ->
  length ms = (length acc + length docs)%nat.
Proof.
  revert acc. induction docs as [| d docs IH]; intros acc; simpl.
  - intros [= <-]. lia.
  - destruct (TeamMember_of_doc d) as [r | e]; simpl; [| done].
    intros H. apply IH in H. rewrite length_app in H. simpl in H. lia.
Qed.

(** X11. The listings are never empty: against any store the resources and
    the team come back with at least one record, and a list that is not the
    default seed has one record for each document the store yielded. *)
Theorem listings_never_empty {St : Type} (db : Store St) (s : St) :
  (exists r rs,
     outcome (run db get_resources s) = Ok (r :: rs)
     /\ (r :: rs = DEFAULT_RESOURCES
         \/ exists docs, (store_get db "resource" s).1 = Ok docs
                         /\ length (r :: rs) = length docs))
  /\ (exists m ms,
        outcome (run db get_team s) = Ok (m :: ms)
        /\ (m :: ms = DEFAULT_TEAM
            \/ exists docs, (store_get db "teammember" s).1 = Ok docs
                            /\ length (m :: ms) = length docs)).
Proof.
  split.
  - destruct (store_get db "resource" s) as [r s1] eqn:Hr.
    rewrite (run_get_resources db s s1 r Hr). unfold outcome. simpl.
    destruct r as [docs | e]; [| eexists _, _; split; [done | by left]].
    destruct (map_resources docs []) as [[| m ms] | e] eqn:Hm;
      try (eexists _, _; split; [done | by left]).
    exists m, ms. split; [done |]. right. exists docs. split; [done |].
    apply map_resources_length in Hm. simpl in *. lia.
  - destruct (store_get db "teammember" s) as [r s1] eqn:Hr.
    rewrite (run_get_team db s s1 r Hr). unfold outcome. simpl.
    destruct r as [docs | e]; [| eexists _, _; split; [done | by left]].
    destruct (map_team docs []) as [[| m ms] | e] eqn:Hm;
      try (eexists _, _; split; [done | by left]).
    exists m, ms. split; [done |]. right. exists docs. split; [done |].
    apply map_team_length in Hm. simpl in *. lia.
Qed.

(** ** Which stored records map *)







(** ** Mood statistics: what the counts add up to *)

Lemma dict_total_update (c : PyDict) (k : PyVal) (v : Z) :
  dict_total (dict_update c k v)
  = dict_total c - default 0 (dict_find c k) + v.
Proof.
  induction c as [| [k' v'] rest IH]; simpl; [lia |].
  destruct (key_eqb k' k); simpl; [lia |]. rewrite IH. lia.
Qed.

Lemma key_eqb_false_sym (a b : PyVal) :
  key_eqb a b = false -> key_eqb b a = false.
Proof.
  intros H. destruct (key_eqb b a) eqn:Hba; [| done].
  apply key_eqb_sym in Hba. congruence.
Qed.

Lemma one_entry_per_key_update (c : PyDict) (k : PyVal) (v : Z) :
  one_entry_per_key c -> one_entry_per_key (dict_update c k v).
Proof.
  induction c as [| [k' v'] rest IH]; simpl; [done |].
  intros [Hk' Hrest]. destruct (key_eqb k' k) eqn:Hk; simpl; [done |].
  split; [| by apply IH].
  rewrite dict_find_update. by rewrite (key_eqb_false_sym _ _ Hk).
Qed.

Lemma counts_positive_update (c : PyDict) (k : PyVal) :
  Forall (fun kv => 1 <= kv.2) c ->
  Forall (fun kv => 1 <= kv.2)
    (dict_update c k (default 0 (dict_find c k) + 1)).
Proof.
  induction 1 as [| [k' v'] rest Hv Hrest IH]; simpl.
  - constructor; [simpl; lia | constructor].
  - destruct (key_eqb k' k); simpl in *.
    + constructor; [simpl; lia | done].
    + by constructor.
Qed.

Lemma tally_invariants (docs : list Doc) (c c' : PyDict) :
  tally docs c = Ok c' ->
  one_entry_per_key c ->
  Forall (fun kv => 1 <= kv.2) c ->
  dict_total c' = dict_total c + len docs
  /\ one_entry_per_key c'
  /\ Forall (fun kv => 1 <= kv.2) c'.
Proof.
  unfold len. revert c.
  induction docs as [| d docs IH]; intros c; simpl.
  - intros [= <-] H1 H2. repeat split; [lia | done | done].
  - unfold dict_get, dict_setitem.
    destruct (py_hashable (doc_get d "mood" (VStr "unknown"))); simpl;
      [| done].
    intros Ht H1 H2.
    destruct (IH _ Ht) as (Hs & Hk & Hp).
    + by apply one_entry_per_key_update.
    + by apply counts_positive_update.
    + rewrite dict_total_update in Hs. repeat split; [lia | done | done].
Qed.

(** X14. Against any store the statistics add up: the total equals the sum
    of all counts (also in the zeroed fallback), every count is at least
    one, and no two entries of the counts have keys Python holds equal. *)
Theorem mood_stats_adds_up {St : Type} (db : Store St) (s : St) :
  exists st : MoodStats,
    outcome (run db mood_stats s) = Ok st
    /\ total st = dict_total (counts st)
    /\ Forall (fun kv => 1 <= kv.2) (counts st)
    /\ one_entry_per_key (counts st).
Proof.
  unfold mood_stats, outcome. simpl.
  destruct (store_get db "moodentry" s) as [[docs | e] s1]; simpl;
    [| eexists; repeat split; constructor].
  destruct (tally docs []) as [c | e] eqn:Ht; simpl;
    [| eexists; repeat split; constructor].
  destruct (tally_invariants docs [] c Ht) as (Hs & Hk & Hp);
    [done | constructor |].
  eexists. split; [done |]. simpl. repeat split; [| done | done].
  rewrite Hs. unfold dict_total. simpl. lia.
Qed.

(** ** Collections *)

(** X15. Every store call goes to the collection named after the class
    concerned, lower-cased: the three writing handlers write there and
    nowhere else and read nothing, the three reading handlers read there,
    and the statistics read the very collection [add_mood] writes to. *)
Theorem handlers_use_own_collections {St : Type} (db : Store St) (s : St)
    (p : AssessmentResponse) (entry : MoodEntry) (msg : ContactMessage) :
  Forall own_collection (run db (submit_assessment p) s).2
  /\ Forall own_collection (run db (add_mood entry) s).2
  /\ Forall own_collection (run db (send_contact msg) s).2
  /\ (run db get_resources s).2 = [CallGet (py_lower "Resource")]
  /\ (run db get_team s).2 = [CallGet (py_lower "TeamMember")]
  /\ (run db mood_stats s).2 = [CallGet (py_lower "MoodEntry")]
  /\ (run db (add_mood entry) s).2
     = [CallCreate (py_lower "MoodEntry") (MMoodEntry entry)].
Proof.
  split; [| split; [| split; [| split; [| split; [| split]]]]].
  - rewrite run_submit_cases. repeat case_match; simpl; repeat constructor.
  - unfold add_mood. simpl.
    destruct (store_create db _ _ s) as [[[] | e] s1]; repeat constructor.
  - unfold send_contact. simpl.
    destruct (store_create db _ _ s) as [[[] | e] s1]; repeat constructor.
  - destruct (store_get db "resource" s) as [r s1] eqn:Hr.
    by rewrite (run_get_resources db s s1 r Hr).
  - destruct (store_get db "teammember" s) as [r s1] eqn:Hr.
    by rewrite (run_get_team db s s1 r Hr).
  - unfold mood_stats. simpl.
    destruct (store_get db "moodentry" s) as [[docs | e] s1]; simpl; [| done].
    by destruct (tally docs []).
  - unfold add_mood. simpl.
    by destruct (store_create db _ _ s) as [[[] | e] s1].
Qed.

(** ** The assessment list and the status report *)

Lemma ASSESSMENTS_items_map : ASSESSMENTS = list_to_map ASSESSMENTS_items.
Proof. reflexivity. Qed.

(** X16. The keys [GET /api/assessments] lists are the keys the submit
    handler accepts: a submission is turned down as "Unknown assessment
    key" exactly when its key is the key of no listed assessment. Each
    listed assessment is filed under its own key, and no key is listed
    twice. *)
Theorem listed_keys_are_accepted {St : Type} (db : Store St) (s : St)
    (p : AssessmentResponse) :
  (outcome (run db (submit_assessment p) s)
   = Err (HTTPException 400 "Unknown assessment key")
   <-> assessment_key p ∉ key <$> list_assessments)
  /\ Forall (fun a => ASSESSMENTS !! key a = Some a) list_assessments
  /\ NoDup (key <$> list_assessments).
Proof.
  split; [| split].
  - rewrite run_submit_cases. unfold known_key. simpl.
    rewrite !not_elem_of_cons.
    destruct (String.eqb_spec (assessment_key p) "phq9") as [-> | H9]; simpl.
    + split; [| by intros [? _]].
      unfold outcome; repeat case_match; simpl; intros Hx;
        try discriminate Hx; injection Hx as Hx; vm_compute in Hx;
        discriminate.
    + destruct (String.eqb_spec (assessment_key p) "gad7") as [-> | H7];
        simpl.
      * split; [| by intros (_ & ? & _)].
        unfold outcome; repeat case_match; simpl; intros Hx;
          try discriminate Hx; injection Hx as Hx; vm_compute in Hx;
          discriminate.
      * split; [intros _ | done].
        repeat split; [done | done | apply not_elem_of_nil].
  - repeat constructor.
  - simpl. repeat constructor; rewrite ?not_elem_of_cons;
      repeat split; try discriminate; apply not_elem_of_nil.
Qed.

